(** * Cobot / perfilometro inspection controller

    A shallow embedding of the three revisions of the prototype
    ([main.py], [main2.py], [main.3.py]) and the properties of the
    comparator and of the inspection cycle.

    Number model.  The profiles are numpy [float64] arrays in the source.
    Two readings of the samples are kept apart.  In [Main3], [Main2] and
    [Main1] a sample is an exact rational ([Q]): sums, means, differences,
    absolute values and maxima are the exact ones; this is the arithmetic
    the specification reasons in, and it is what the control flow of the
    scripts (what is received, sent, logged, caught and reconnected) is
    studied with.  In [Binary64] a sample is a binary64 number and the
    comparator of main.3.py is embedded once more with numpy's own
    arithmetic: every operation rounds, the sum is numpy's pairwise sum,
    and [nan] and the infinities are values.  What the comparator returns
    on given samples is settled there.  Comparisons of rationals are up
    to [Qeq]; the verdict is a [bool], compared with [=]. *)

From Stdlib Require Import String.
From Stdlib Require Import List Bool Arith ZArith QArith Qabs Qminmax Lia.
From Stdlib Require Import Setoid Morphisms.
From Stdlib Require Import Floats.
From Stdlib Require Uint63.
Import ListNotations.

Local Open Scope Q_scope.

(** ** Python values and exceptions *)

(** The exceptions the three scripts can meet.  [socket.error] and
    [IOError] are aliases of [OSError]; [socket.timeout] is a subclass of
    it.  [KeyboardInterrupt] and [SystemExit] derive from [BaseException]
    only, so [except Exception] lets them through. *)
Inductive excepcion : Type :=
| SocketTimeout
| OSError
| ValueError
| TypeError
| AttributeError
| KeyboardInterrupt
| SystemExit.

(** [isinstance(e, socket.error)], which is [isinstance(e, IOError)] *)
Definition es_OSError (e : excepcion) : bool :=
  match e with
  | SocketTimeout | OSError => true
  | _ => false
  end.

(** [isinstance(e, socket.timeout)] *)
Definition es_socket_timeout (e : excepcion) : bool :=
  match e with
  | SocketTimeout => true
  | _ => false
  end.

(** [isinstance(e, Exception)] *)
Definition es_Exception (e : excepcion) : bool :=
  match e with
  | KeyboardInterrupt | SystemExit => false
  | _ => true
  end.

(** [isinstance(e, KeyboardInterrupt)] *)
Definition es_KeyboardInterrupt (e : excepcion) : bool :=
  match e with
  | KeyboardInterrupt => true
  | _ => false
  end.

(** The outcome of evaluating a Python expression: a value or a raised
    exception. *)
Inductive py (A : Type) : Type :=
| Ok (a : A)
| Exc (e : excepcion).
Arguments Ok {A} a.
Arguments Exc {A} e.

Definition py_bind {A B} (m : py A) (k : A -> py B) : py B :=
  match m with
  | Ok a => k a
  | Exc e => Exc e
  end.

(** What [comparar_perfiles] returns: [True], [False] or [None]. *)
Definition retorno : Type := option bool.
Definition DEFECTIVE : retorno := Some true.
Definition GOOD : retorno := Some false.

(** Python truthiness of the returned object ([if defecto:]). *)
Definition truthy (r : retorno) : bool :=
  match r with
  | Some b => b
  | None => false
  end.

(** ** The numpy operations the scripts use, on one-dimensional arrays *)

Definition perfil : Type := list Q.

Module np.

(** [np.sum]: the samples added up from 0 (in exact arithmetic the order
    numpy adds them in does not matter). *)
Definition sum (a : perfil) : Q := fold_left Qplus a 0.

(** [np.mean(a)]: the sum over the number of samples.  On an empty array
    numpy only warns and yields [nan]; the quotient by zero of [Q] stands
    for it (no caller uses that value: [amax] raises first). *)
Definition mean (a : perfil) : Q := sum a / inject_Z (Z.of_nat (length a)).

(** [array - scalar] *)
Definition sub_escalar (a : perfil) (s : Q) : perfil :=
  map (fun x => x - s) a.

(** Elementwise subtraction of two arrays of one length. *)
Fixpoint sub_zip (a b : perfil) : perfil :=
  match a, b with
  | x :: a', y :: b' => (x - y) :: sub_zip a' b'
  | _, _ => []
  end.

(** [a - b] with numpy broadcasting of one-dimensional shapes: equal
    lengths go elementwise, a length-1 operand is stretched, anything
    else raises [ValueError]. *)
Definition sub (a b : perfil) : py perfil :=
  if Nat.eqb (length a) (length b) then Ok (sub_zip a b)
  else match a, b with
       | [x], _ => Ok (map (fun y => x - y) b)
       | _, [y] => Ok (map (fun x => x - y) a)
       | _, _ => Exc ValueError
       end.

(** [np.abs] *)
Definition abs (a : perfil) : perfil := map Qabs a.

(** [np.max]: raises [ValueError] on a zero-size array. *)
Definition amax (a : perfil) : py Q :=
  match a with
  | [] => Exc ValueError
  | x :: r => Ok (fold_left Qmax r x)
  end.

End np.

(** [x > y] on two numbers. *)
Definition Qgt_bool (x y : Q) : bool := negb (Qle_bool x y).

(** ** Observable effects *)

Inductive nivel : Type := INFO | WARNING | ERROR | CRITICAL.

(** What a run does to the outside, in order.  A [Log] carries the level and
    the line of the [logging] call in the file being modelled
    ([logging.debug] is below the configured level and leaves no event). *)
Inductive evento : Type :=
| Log (n : nivel) (linea : nat)
| Sleep (segundos : Q)
| SensorConnect
| SensorSendall (comando : string)
| SensorRecv
| SensorClose
| CobotConnect
| CobotRecv
| CobotSendall (comando : string)
| CobotClose.

(** ** A state, trace and exception monad

    A method runs on its object [S], appends to the trace and either
    returns or raises; field updates made before a [raise] stay. *)
Record salida (S A : Type) : Type := Salida {
  valor : py A;
  fin : S;
  traza : list evento
}.
Arguments Salida {S A} valor fin traza.
Arguments valor {S A} s.
Arguments fin {S A} s.
Arguments traza {S A} s.

Definition M (S A : Type) : Type := S -> salida S A.

Definition ret {S A} (a : A) : M S A := fun s => Salida (Ok a) s [].

Definition raise {S A} (e : excepcion) : M S A := fun s => Salida (Exc e) s [].

Definition bind {S A B} (m : M S A) (k : A -> M S B) : M S B :=
  fun s =>
    match m s with
    | Salida (Ok a) s' t =>
        match k a s' with
        | Salida v s'' t' => Salida v s'' (t ++ t')
        end
    | Salida (Exc e) s' t => Salida (Exc e) s' t
    end.

(** [try: m  except C1: h1  except C2: h2 ...] : the first clause whose
    class test accepts the exception handles it; an exception that no
    clause accepts, or that a handler raises, propagates. *)
Definition clausula (S A : Type) : Type :=
  ((excepcion -> bool) * (excepcion -> M S A))%type.

Fixpoint elegir {S A} (cs : list (clausula S A)) (e : excepcion)
    : option (M S A) :=
  match cs with
  | [] => None
  | (sel, h) :: cs' => if sel e then Some (h e) else elegir cs' e
  end.

Definition try_except {S A} (m : M S A) (cs : list (clausula S A)) : M S A :=
  fun s =>
    match m s with
    | Salida (Ok a) s' t => Salida (Ok a) s' t
    | Salida (Exc e) s' t =>
        match elegir cs e with
        | Some h =>
            match h s' with
            | Salida v s'' t' => Salida v s'' (t ++ t')
            end
        | None => Salida (Exc e) s' t
        end
    end.

(** [try: m  finally: f] *)
Definition try_finally {S A} (m : M S A) (f : M S unit) : M S A :=
  fun s =>
    match m s with
    | Salida v s' t =>
        match f s' with
        | Salida (Ok _) s'' t' => Salida v s'' (t ++ t')
        | Salida (Exc e) s'' t' => Salida (Exc e) s'' (t ++ t')
        end
    end.

Definition get {S} : M S S := fun s => Salida (Ok s) s [].
Definition put {S} (s' : S) : M S unit := fun _ => Salida (Ok tt) s' [].
Definition emit {S} (ev : evento) : M S unit := fun s => Salida (Ok tt) s [ev].
Definition log {S} (n : nivel) (linea : nat) : M S unit := emit (Log n linea).
Definition sleep {S} (segundos : Q) : M S unit := emit (Sleep segundos).
Definition lift_py {S A} (v : py A) : M S A := fun s => Salida v s [].

(** The line ends of the commands sent to the peers. *)
Definition LF : string := String (Ascii.ascii_of_nat 10) EmptyString.
Definition CRLF : string := String (Ascii.ascii_of_nat 13) LF.

Declare Scope py_scope.
Delimit Scope py_scope with py.
Notation "x <- m ; k" := (bind m (fun x => k))
  (at level 61, m at next level, right associativity) : py_scope.
Notation "m ;; k" := (bind m (fun _ => k))
  (at level 61, right associativity) : py_scope.
Local Open Scope py_scope.

(** ** What the peers do: the inputs of a run *)

(** A socket object; [self.socket] and [self.cobot_socket] hold one or
    [None].  The scripts only test such an attribute for [None]. *)
Inductive socket_t : Type := SocketObj.

(** The outcome of [self.cobot_socket.recv(1024)]. *)
Inductive recepcion : Type :=
| RecvDatos      (* some bytes: the part-ready signal *)
| RecvVacio      (* [b'']: the peer closed *)
| RecvTimeout    (* raises [socket.timeout] *)
| RecvError.     (* raises another [socket.error] *)

(** The outcome of the sensor's connection: the first step of the
    handshake that raises [socket.error], if any. *)
Inductive handshake : Type :=
| HsOk
| HsFallaConnect   (* [socket.connect] *)
| HsFallaLogin     (* [sendall(b'admin\r\n')] *)
| HsFallaBanner.   (* [recv(2048)] *)

(** The outcome of the request/response exchange of [adquirir_perfil].
    A response is given as it stands after [strip()] and [split('\t')]:
    the text of the first part, and for each further part what [float]
    makes of it ([None] when it is not a number). *)
Inductive dialogo : Type :=
| DialogoSendFalla (e : excepcion)   (* [sendall] raises *)
| DialogoRecvFalla (e : excepcion)   (* a [recv] of the loop raises *)
| DialogoRespuesta (estado : string) (muestras : list (option Q)).

Record conexiones : Type := Conexiones {
  handshake_sensor : handshake;
  connect_cobot : bool          (* [false]: [connect] raises [socket.error] *)
}.

(** The outcomes of the input/output calls of one iteration of the main
    loop; every such call is made at most once per iteration. *)
Record entorno : Type := Entorno {
  recv_cobot : recepcion;
  dialogo_sensor : dialogo;
  sendall_cobot : bool;         (* [false]: [sendall] raises [socket.error] *)
  reconexion : conexiones
}.

(** The outcome of [np.loadtxt(path, delimiter=',')]: the array, or
    [OSError] for a missing or unreadable file, or [ValueError] for text
    that is not numeric. *)
Definition carga : Type := py perfil.

(** [np.array(tokens, dtype=float)]: [ValueError] at the first part that
    is not a number. *)
Fixpoint np_array_float (tokens : list (option Q)) : py perfil :=
  match tokens with
  | [] => Ok []
  | None :: _ => Exc ValueError
  | Some x :: r => py_bind (np_array_float r) (fun a => Ok (x :: a))
  end.

(** * main.3.py *)
Module Main3.

(** ** class CognexPerfilometro *)
Record CognexPerfilometro : Type := MkCognex {
  socket : option socket_t;
  is_connected : bool
}.

(** [self.socket = v], [self.is_connected = v] *)
Definition set_socket (v : option socket_t) : M CognexPerfilometro unit :=
  fun p => Salida (Ok tt) (MkCognex v (is_connected p)) [].

Definition set_is_connected (v : bool) : M CognexPerfilometro unit :=
  fun p => Salida (Ok tt) (MkCognex (socket p) v) [].

(** [connect(self)] *)
Definition connect (hs : handshake) : M CognexPerfilometro bool :=
  try_except
    (set_socket (Some SocketObj) ;;
     emit SensorConnect ;;
     (match hs with HsFallaConnect => raise OSError | _ => ret tt end) ;;
     emit (SensorSendall ("admin" ++ CRLF)) ;;
     (match hs with HsFallaLogin => raise OSError | _ => ret tt end) ;;
     sleep 0.5 ;;
     emit SensorRecv ;;
     (match hs with HsFallaBanner => raise OSError | _ => ret tt end) ;;
     set_is_connected true ;;
     log INFO 56 ;;
     ret true)
    [ (es_OSError,
       fun _ =>
         log ERROR 59 ;;
         set_is_connected false ;;
         ret false) ].

(** [__init__(self, ip_address, port)] *)
Definition Cognex_init (hs : handshake) : M CognexPerfilometro unit :=
  set_socket None ;;
  set_is_connected false ;;
  _ <- connect hs ;
  ret tt.

(** [adquirir_perfil(self)].  The receive loop is taken as a whole: it
    ends with the accumulated response or with the exception of a
    [recv]. *)
Definition adquirir_perfil (d : dialogo) : M CognexPerfilometro (option perfil) :=
  self <- get ;
  if negb (is_connected self) then
    log ERROR 69 ;;
    ret None
  else
    try_except
      (emit (SensorSendall ("GVPerfil" ++ CRLF)) ;;
       match d with
       | DialogoSendFalla e => raise e
       | DialogoRecvFalla e => emit SensorRecv ;; raise e
       | DialogoRespuesta estado muestras =>
           emit SensorRecv ;;
           if String.eqb estado "1" then
             puntos_perfil <- lift_py (np_array_float muestras) ;
             log INFO 103 ;;
             ret (Some puntos_perfil)
           else
             log ERROR 106 ;;
             ret None
       end)
      [ (es_socket_timeout, fun _ => log WARNING 110 ;; ret None);
        (es_Exception, fun _ => log ERROR 113 ;; ret None) ].

(** [close(self)] *)
Definition close : M CognexPerfilometro unit :=
  self <- get ;
  match socket self with
  | Some _ =>
      emit SensorClose ;;
      set_is_connected false ;;
      log INFO 121
  | None => ret tt
  end.

(** ** class SistemaInspeccion

    The addresses and ports of [config] only name the peers; the
    outcome of talking to them is the run's input. *)
Record SistemaInspeccion : Type := MkSistema {
  perfilometro : option CognexPerfilometro;
  cobot_socket : option socket_t;
  perfil_maestro : option perfil;
  UMBRAL_TOLERANCIA : Q
}.

Definition set_perfilometro (v : option CognexPerfilometro)
    : M SistemaInspeccion unit :=
  fun s => Salida (Ok tt)
    (MkSistema v (cobot_socket s) (perfil_maestro s) (UMBRAL_TOLERANCIA s)) [].
Definition set_cobot_socket (v : option socket_t) : M SistemaInspeccion unit :=
  fun s => Salida (Ok tt)
    (MkSistema (perfilometro s) v (perfil_maestro s) (UMBRAL_TOLERANCIA s)) [].
Definition set_perfil_maestro (v : option perfil) : M SistemaInspeccion unit :=
  fun s => Salida (Ok tt)
    (MkSistema (perfilometro s) (cobot_socket s) v (UMBRAL_TOLERANCIA s)) [].
Definition set_UMBRAL_TOLERANCIA (v : Q) : M SistemaInspeccion unit :=
  fun s => Salida (Ok tt)
    (MkSistema (perfilometro s) (cobot_socket s) (perfil_maestro s) v) [].

(** [self.perfilometro.<metodo>()]: the method runs on the sensor object
    held by the attribute; on [None] the attribute lookup raises. *)
Definition en_perfilometro {A} (m : M CognexPerfilometro A)
    : M SistemaInspeccion A :=
  fun s =>
    match perfilometro s with
    | None => Salida (Exc AttributeError) s []
    | Some p =>
        match m p with
        | Salida v p' t =>
            Salida v
              (MkSistema (Some p') (cobot_socket s) (perfil_maestro s)
                 (UMBRAL_TOLERANCIA s))
              t
        end
    end.

(** [CognexPerfilometro(ip, port)]: a fresh object on which [__init__]
    has run. *)
Definition Cognex_nuevo (hs : handshake) : M SistemaInspeccion CognexPerfilometro :=
  fun s =>
    match Cognex_init hs (MkCognex None false) with
    | Salida (Ok _) p t => Salida (Ok p) s t
    | Salida (Exc e) _ t => Salida (Exc e) s t
    end.

(** [cargar_perfil_maestro(self, path)] *)
Definition cargar_perfil_maestro (c : carga) : M SistemaInspeccion (option perfil) :=
  try_except
    (perfil <- lift_py c ;
     log INFO 145 ;;
     ret (Some perfil))
    [ (es_OSError, fun _ => log ERROR 148 ;; ret None) ].

(** [__init__(self, config)] *)
Definition Sistema_init (umbral : Q) (c : carga) : M SistemaInspeccion unit :=
  set_perfilometro None ;;
  set_cobot_socket None ;;
  pm <- cargar_perfil_maestro c ;
  set_perfil_maestro pm ;;
  set_UMBRAL_TOLERANCIA umbral.

(** [conectar(self)] *)
Definition conectar (cx : conexiones) : M SistemaInspeccion bool :=
  p <- Cognex_nuevo (handshake_sensor cx) ;
  set_perfilometro (Some p) ;;
  if negb (is_connected p) then ret false
  else
    ok <- try_except
            (set_cobot_socket (Some SocketObj) ;;
             emit CobotConnect ;;
             (if connect_cobot cx then ret tt else raise OSError) ;;
             log INFO 163 ;;
             ret true)
            [ (es_OSError, fun _ => log ERROR 165 ;; ret false) ] ;
    if ok then ret true else ret false.

(** [comparar_perfiles(self, perfil_actual)] *)
Definition comparar_perfiles (perfil_actual : perfil) : M SistemaInspeccion retorno :=
  self <- get ;
  match perfil_maestro self with
  | None =>
      log WARNING 173 ;;
      ret None
  | Some maestro =>
      if negb (Nat.eqb (length maestro) (length perfil_actual)) then
        log ERROR 177 ;;
        ret (Some true)
      else
        let perfil_actual_norm :=
          np.sub_escalar perfil_actual (np.mean perfil_actual) in
        let perfil_maestro_norm :=
          np.sub_escalar maestro (np.mean maestro) in
        resta <- lift_py (np.sub perfil_actual_norm perfil_maestro_norm) ;
        let diferencias := np.abs resta in
        desviacion_maxima <- lift_py (np.amax diferencias) ;
        if Qgt_bool desviacion_maxima (UMBRAL_TOLERANCIA self) then
          log INFO 188 ;;
          ret (Some true)
        else
          log INFO 191 ;;
          ret (Some false)
  end.

(** [enviar_comando_cobot(self, comando)] *)
Definition enviar_comando_cobot (envio_ok : bool) (comando : string)
    : M SistemaInspeccion unit :=
  try_except
    (self <- get ;
     match cobot_socket self with
     | None => raise AttributeError
     | Some _ =>
         emit (CobotSendall comando) ;;
         (if envio_ok then ret tt else raise OSError) ;;
         log INFO 198
     end)
    [ (es_OSError, fun _ => log ERROR 200) ].

(** [self.conectar_cobot()]: the class defines no such method, so the
    attribute lookup raises. *)
Definition conectar_cobot : M SistemaInspeccion unit := raise AttributeError.

(** [self.cobot_socket.recv(1024)]; the result is whether [data] is
    non-empty. *)
Definition cobot_recv (r : recepcion) : M SistemaInspeccion bool :=
  self <- get ;
  match cobot_socket self with
  | None => raise AttributeError
  | Some _ =>
      emit CobotRecv ;;
      match r with
      | RecvDatos => ret true
      | RecvVacio => ret false
      | RecvTimeout => raise SocketTimeout
      | RecvError => raise OSError
      end
  end.

Definition PIEZA_DEFECTUOSA : string := "PIEZA_DEFECTUOSA" ++ LF.
Definition PIEZA_BUENA : string := "PIEZA_BUENA" ++ LF.

(** One pass through the body of the [while True] of
    [ejecutar_ciclo_inspeccion]. *)
Definition iteracion (env : entorno) : M SistemaInspeccion unit :=
  try_except
    (log INFO 206 ;;
     data <- cobot_recv (recv_cobot env) ;
     if negb data then
       log WARNING 209 ;;
       sleep 5 ;;
       conectar_cobot
     else
       log INFO 214 ;;
       perfil_actual <- en_perfilometro (adquirir_perfil (dialogo_sensor env)) ;
       match perfil_actual with
       | Some p =>
           defecto <- comparar_perfiles p ;
           if truthy defecto then
             enviar_comando_cobot (sendall_cobot env) PIEZA_DEFECTUOSA
           else
             enviar_comando_cobot (sendall_cobot env) PIEZA_BUENA
       | None =>
           log ERROR 225
       end)
    [ (es_socket_timeout, fun _ => log WARNING 228);
      (es_Exception,
       fun _ =>
         log ERROR 230 ;;
         log INFO 231 ;;
         sleep 10 ;;
         _ <- conectar (reconexion env) ;
         ret tt) ].

(** [ejecutar_ciclo_inspeccion(self)]: the loop has no exit of its own.
    A run is given by the iterations the operator lets it make before
    interrupting it; the interrupt is taken between two iterations. *)
Fixpoint ejecutar_ciclo_inspeccion (iteraciones : list entorno)
    : M SistemaInspeccion unit :=
  match iteraciones with
  | [] => raise KeyboardInterrupt
  | env :: resto => iteracion env ;; ejecutar_ciclo_inspeccion resto
  end.

(** [desconectar_todo(self)] *)
Definition desconectar_todo : M SistemaInspeccion unit :=
  self <- get ;
  (match perfilometro self with
   | Some _ => en_perfilometro close
   | None => ret tt
   end) ;;
  match cobot_socket self with
  | Some _ => emit CobotClose ;; log INFO 241
  | None => ret tt
  end.

(** The object before [__init__] has assigned its attributes (none is
    read before it is assigned). *)
Definition sin_inicializar : SistemaInspeccion := MkSistema None None None 0.

(** The block under [if __name__ == "__main__":], with
    [CONFIG["umbral_tolerancia_mm"] = 0.5]. *)
Definition main (c : carga) (inicial : conexiones) (iteraciones : list entorno)
    : M SistemaInspeccion unit :=
  Sistema_init 0.5 c ;;
  sistema <- get ;
  (match perfil_maestro sistema with
   | None => log CRITICAL 249 ;; raise SystemExit
   | Some _ => ret tt
   end) ;;
  conectado <- conectar inicial ;
  if conectado then
    log INFO 253 ;;
    try_finally
      (try_except
         (ejecutar_ciclo_inspeccion iteraciones)
         [ (es_KeyboardInterrupt, fun _ => log INFO 257) ])
      (desconectar_todo ;;
       log INFO 260)
  else
    log CRITICAL 262.

End Main3.

(** The exit status of the interpreter: 0 when the script runs to its end
    or [exit()] raises [SystemExit] with no code; 130 when the operator's
    interrupt reaches the top level (the interpreter ends by the signal);
    1 when another exception does. *)
Definition estado_de_salida (v : py unit) : Z :=
  match v with
  | Ok _ => 0%Z
  | Exc SystemExit => 0%Z
  | Exc KeyboardInterrupt => 130%Z
  | Exc _ => 1%Z
  end.

(** * main2.py

    The second revision.  Its sensor is the vendor's [perfilometro_sdk]
    (not part of the repository): what [Perfilometro(ip)] and
    [adquirir_perfil()] do is an input of the run. *)
Module Main2.

Inductive Perfilometro : Type := SdkObj.

Record SistemaInspeccion : Type := MkSistema {
  perfilometro : option Perfilometro;
  cobot_socket : option socket_t;
  perfil_maestro : option perfil;
  UMBRAL_TOLERANCIA : Q
}.

Record conexiones2 : Type := Conexiones2 {
  sdk_connect : py unit;      (* [Perfilometro(ip)] returns or raises *)
  connect_cobot2 : bool
}.

Record entorno2 : Type := Entorno2 {
  recv_cobot2 : recepcion;
  sdk_adquirir : py (option perfil);   (* [adquirir_perfil()] of the SDK *)
  sendall_cobot2 : bool;
  reconexion2 : conexiones2
}.

Definition set_perfilometro (v : option Perfilometro) : M SistemaInspeccion unit :=
  fun s => Salida (Ok tt)
    (MkSistema v (cobot_socket s) (perfil_maestro s) (UMBRAL_TOLERANCIA s)) [].
Definition set_cobot_socket (v : option socket_t) : M SistemaInspeccion unit :=
  fun s => Salida (Ok tt)
    (MkSistema (perfilometro s) v (perfil_maestro s) (UMBRAL_TOLERANCIA s)) [].
Definition set_perfil_maestro (v : option perfil) : M SistemaInspeccion unit :=
  fun s => Salida (Ok tt)
    (MkSistema (perfilometro s) (cobot_socket s) v (UMBRAL_TOLERANCIA s)) [].
Definition set_UMBRAL_TOLERANCIA (v : Q) : M SistemaInspeccion unit :=
  fun s => Salida (Ok tt)
    (MkSistema (perfilometro s) (cobot_socket s) (perfil_maestro s) v) [].

(** [cargar_perfil_maestro(self)] *)
Definition cargar_perfil_maestro (c : carga) : M SistemaInspeccion (option perfil) :=
  try_except
    (perfil <- lift_py c ;
     log INFO 40 ;;
     ret (Some perfil))
    [ (es_OSError, fun _ => log ERROR 43 ;; ret None) ].

(** [__init__(self, perfilometro_ip, cobot_ip, cobot_port=30002)] *)
Definition Sistema_init (c : carga) : M SistemaInspeccion unit :=
  set_perfilometro None ;;
  set_cobot_socket None ;;
  pm <- cargar_perfil_maestro c ;
  set_perfil_maestro pm ;;
  set_UMBRAL_TOLERANCIA 0.5.

(** [conectar(self)] *)
Definition conectar (cx : conexiones2) : M SistemaInspeccion bool :=
  ok <- try_except
          (lift_py (sdk_connect cx) ;;
           set_perfilometro (Some SdkObj) ;;
           log INFO 51 ;;
           ret true)
          [ (es_Exception, fun _ => log ERROR 53 ;; ret false) ] ;
  if negb ok then ret false
  else
    ok' <- try_except
             (set_cobot_socket (Some SocketObj) ;;
              emit CobotConnect ;;
              (if connect_cobot2 cx then ret tt else raise OSError) ;;
              log INFO 61 ;;
              ret true)
             [ (es_OSError, fun _ => log ERROR 63 ;; ret false) ] ;
    if ok' then ret true else ret false.

(** [comparar_perfiles(self, perfil_actual)]: no test of the lengths;
    [np.mean(None)] raises [TypeError]. *)
Definition comparar_perfiles (perfil_actual : option perfil)
    : M SistemaInspeccion retorno :=
  self <- get ;
  match perfil_maestro self with
  | None =>
      log WARNING 71 ;;
      ret None
  | Some maestro =>
      match perfil_actual with
      | None => raise TypeError
      | Some actual =>
          let perfil_actual_norm := np.sub_escalar actual (np.mean actual) in
          let perfil_maestro_norm := np.sub_escalar maestro (np.mean maestro) in
          resta <- lift_py (np.sub perfil_actual_norm perfil_maestro_norm) ;
          let diferencias := np.abs resta in
          desviacion_maxima <- lift_py (np.amax diferencias) ;
          if Qgt_bool desviacion_maxima (UMBRAL_TOLERANCIA self) then
            log INFO 82 ;;
            ret (Some true)
          else
            log INFO 85 ;;
            ret (Some false)
      end
  end.

(** [enviar_comando_cobot(self, comando)] *)
Definition enviar_comando_cobot (envio_ok : bool) (comando : string)
    : M SistemaInspeccion unit :=
  try_except
    (self <- get ;
     match cobot_socket self with
     | None => raise AttributeError
     | Some _ =>
         emit (CobotSendall comando) ;;
         (if envio_ok then ret tt else raise OSError) ;;
         log INFO 92
     end)
    [ (es_OSError, fun _ => log ERROR 94) ].

Definition cobot_recv (r : recepcion) : M SistemaInspeccion bool :=
  self <- get ;
  match cobot_socket self with
  | None => raise AttributeError
  | Some _ =>
      emit CobotRecv ;;
      match r with
      | RecvDatos => ret true
      | RecvVacio => ret false
      | RecvTimeout => raise SocketTimeout
      | RecvError => raise OSError
      end
  end.

(** [self.perfilometro.adquirir_perfil()] *)
Definition sdk_adquirir_perfil (r : py (option perfil))
    : M SistemaInspeccion (option perfil) :=
  self <- get ;
  match perfilometro self with
  | None => raise AttributeError
  | Some _ => lift_py r
  end.

(** One pass through the body of the [while True]. *)
Definition iteracion (env : entorno2) : M SistemaInspeccion unit :=
  try_except
    (log INFO 101 ;;
     data <- cobot_recv (recv_cobot2 env) ;
     if negb data then
       log WARNING 104 ;;
       sleep 5 ;;
       _ <- conectar (reconexion2 env) ;
       ret tt
     else
       log INFO 109 ;;
       perfil_actual <- sdk_adquirir_perfil (sdk_adquirir env) ;
       defecto <- comparar_perfiles perfil_actual ;
       if truthy defecto then
         enviar_comando_cobot (sendall_cobot2 env) ("PIEZA_DEFECTUOSA" ++ LF)
       else
         enviar_comando_cobot (sendall_cobot2 env) ("PIEZA_BUENA" ++ LF))
    [ (es_socket_timeout, fun _ => log WARNING 124);
      (es_Exception, fun _ => log ERROR 127 ;; sleep 5) ].

Fixpoint ejecutar_ciclo_inspeccion (iteraciones : list entorno2)
    : M SistemaInspeccion unit :=
  match iteraciones with
  | [] => raise KeyboardInterrupt
  | env :: resto => iteracion env ;; ejecutar_ciclo_inspeccion resto
  end.

Definition sin_inicializar : SistemaInspeccion := MkSistema None None None 0.

(** The block under [if __name__ == "__main__":] (the import of the SDK
    having succeeded). *)
Definition main (c : carga) (inicial : conexiones2) (iteraciones : list entorno2)
    : M SistemaInspeccion unit :=
  Sistema_init c ;;
  sistema <- get ;
  (match perfil_maestro sistema with
   | None => log CRITICAL 139 ;; raise SystemExit
   | Some _ => ret tt
   end) ;;
  conectado <- conectar inicial ;
  if conectado then
    log INFO 143 ;;
    ejecutar_ciclo_inspeccion iteraciones
  else
    log CRITICAL 146.

End Main2.

(** * main.py

    The first revision: a module-level function, no centring and no test
    of the lengths. *)
Module Main1.

Definition UMBRAL_TOLERANCIA : Q := 0.5.

(** [comparar_perfiles(perfil_actual, perfil_maestro)] *)
Definition comparar_perfiles (perfil_actual perfil_maestro : perfil) : py bool :=
  py_bind (np.sub perfil_actual perfil_maestro) (fun resta =>
  let diferencias := np.abs resta in
  py_bind (np.amax diferencias) (fun maximo =>
  if Qgt_bool maximo UMBRAL_TOLERANCIA then Ok true else Ok false)).

End Main1.

(** * The comparator of main.3.py on binary64 samples

    numpy computes on [float64]: every sum, quotient and difference is
    rounded to binary64, and [nan] and the two infinities are values like
    the others.  This module is the comparator of main.3.py once more,
    statement for statement, with a sample a binary64 number (Rocq's
    primitive [float], which is IEEE 754 binary64 with round to nearest
    even and one [nan]).  The arrays are one-dimensional, as the profiles
    that [adquirir_perfil] returns are. *)
Module Binary64.

Local Open Scope float_scope.

Definition perfil : Type := list float.

Module np.

(** The number of samples as a [float64] (exact below 2^53). *)
Definition of_nat (n : nat) : float :=
  of_uint63 (Uint63.of_Z (Z.of_nat n)).

(** numpy adds the items of a contiguous array by pairwise summation
    ([DOUBLE_pairwise_sum]).  Fewer than 8 items are added one after the
    other, from 0. *)
Definition suma_lineal (res : float) (a : perfil) : float :=
  fold_left PrimFloat.add a res.

(** Up to 128 items go through eight accumulators [r[0] .. r[7]]: they
    start as the first eight items, each further block of eight is added
    to them item by item, they are combined as a balanced tree, and the
    items left over (fewer than eight) are added to the result one after
    the other. *)
Fixpoint add_zip (r a : perfil) : perfil :=
  match r, a with
  | x :: r', y :: a' => (x + y) :: add_zip r' a'
  | _, _ => []
  end.

Fixpoint acumular (bloques : nat) (r a : perfil) : perfil * perfil :=
  match bloques with
  | O => (r, a)
  | S k => acumular k (add_zip r (firstn 8 a)) (skipn 8 a)
  end.

Definition combinar (r : perfil) : float :=
  match r with
  | [r0; r1; r2; r3; r4; r5; r6; r7] =>
      ((r0 + r1) + (r2 + r3)) + ((r4 + r5) + (r6 + r7))
  | _ => 0
  end.

Definition suma_bloque (a : perfil) : float :=
  let '(r, resto) :=
    acumular (length a / 8 - 1) (firstn 8 a) (skipn 8 a) in
  suma_lineal (combinar r) resto.

(** More than 128 items are split at [n2 = n/2 - (n/2) % 8] and the two
    sums added.  Each half is shorter than the whole, so [length a] calls
    deep is more than the recursion needs. *)
Fixpoint pairwise_sum (profundidad : nat) (a : perfil) : float :=
  let n := length a in
  if (n <? 8)%nat then suma_lineal 0 a
  else if (n <=? 128)%nat then suma_bloque a
  else
    match profundidad with
    | O => 0
    | S k =>
        let n2 := (n / 2 - (n / 2) mod 8)%nat in
        pairwise_sum k (firstn n2 a) + pairwise_sum k (skipn n2 a)
    end.

(** [np.sum]: the reduction starts from the identity 0 and adds the
    pairwise sum of the array to it. *)
Definition sum (a : perfil) : float := 0 + pairwise_sum (length a) a.

(** [np.mean(a)]: the sum over the number of samples; [nan] (0/0) on an
    empty array, where numpy also warns. *)
Definition mean (a : perfil) : float := sum a / of_nat (length a).

(** [array - scalar] *)
Definition sub_escalar (a : perfil) (s : float) : perfil :=
  map (fun x => x - s) a.

(** Elementwise subtraction of two arrays of one length. *)
Fixpoint sub_zip (a b : perfil) : perfil :=
  match a, b with
  | x :: a', y :: b' => (x - y) :: sub_zip a' b'
  | _, _ => []
  end.

(** [a - b] with numpy broadcasting of one-dimensional shapes. *)
Definition sub (a b : perfil) : py perfil :=
  if Nat.eqb (length a) (length b) then Ok (sub_zip a b)
  else match a, b with
       | [x], _ => Ok (map (fun y => x - y) b)
       | _, [y] => Ok (map (fun x => x - y) a)
       | _, _ => Exc ValueError
       end.

(** [np.abs] *)
Definition abs (a : perfil) : perfil := map PrimFloat.abs a.

(** [np.maximum], the step of [np.max]: the first operand when it is
    greater or equal, or when it is [nan]; the second otherwise (so a
    [nan] on either side comes out). *)
Definition maximum (x y : float) : float :=
  if (y <=? x) || is_nan x then x else y.

(** [np.max]: raises [ValueError] on a zero-size array. *)
Definition amax (a : perfil) : py float :=
  match a with
  | [] => Exc ValueError
  | x :: r => Ok (fold_left maximum r x)
  end.

End np.

(** The attributes of [SistemaInspeccion], with the master profile and
    the tolerance as binary64 numbers. *)
Record SistemaInspeccion : Type := MkSistema {
  perfilometro : option Main3.CognexPerfilometro;
  cobot_socket : option socket_t;
  perfil_maestro : option perfil;
  UMBRAL_TOLERANCIA : float
}.

(** [comparar_perfiles(self, perfil_actual)], main.3.py lines 170 to 192.
    [desviacion_maxima > self.UMBRAL_TOLERANCIA] is the comparison of two
    binary64 numbers: false when either is [nan]. *)
Definition comparar_perfiles (perfil_actual : perfil)
    : M SistemaInspeccion retorno :=
  self <- get ;
  match perfil_maestro self with
  | None =>
      log WARNING 173 ;;
      ret None
  | Some maestro =>
      if negb (Nat.eqb (length maestro) (length perfil_actual)) then
        log ERROR 177 ;;
        ret (Some true)
      else
        let perfil_actual_norm :=
          np.sub_escalar perfil_actual (np.mean perfil_actual) in
        let perfil_maestro_norm :=
          np.sub_escalar maestro (np.mean maestro) in
        resta <- lift_py (np.sub perfil_actual_norm perfil_maestro_norm) ;
        let diferencias := np.abs resta in
        desviacion_maxima <- lift_py (np.amax diferencias) ;
        if UMBRAL_TOLERANCIA self <? desviacion_maxima then
          log INFO 188 ;;
          ret (Some true)
        else
          log INFO 191 ;;
          ret (Some false)
  end.

(** The steps of [comparar_perfiles] between the test of the lengths and
    the comparison with the threshold, under the names of its local
    variables. *)
Definition perfil_norm (a : perfil) : perfil := np.sub_escalar a (np.mean a).

Definition desviacion_maxima (perfil_actual maestro : perfil) : py float :=
  py_bind (np.sub (perfil_norm perfil_actual) (perfil_norm maestro))
    (fun resta => np.amax (np.abs resta)).

(** ** The comparator in the words of the specification, in binary64 *)

(** The absolute pointwise differences of two sequences. *)
Definition diferencias_absolutas (a b : perfil) : perfil :=
  map (fun xy => PrimFloat.abs (fst xy - snd xy)) (combine a b).

(** [d] is the maximum of the numbers [l]: it is one of them; it is
    [nan] if one of them is [nan], and otherwise none of them is greater
    than it. *)
Definition es_maximo (l : perfil) (d : float) : Prop :=
  In d l /\
  if existsb is_nan l then is_nan d = true
  else forallb (fun x => x <=? d) l = true.

(** Adding the constant [c] to every sample. *)
Definition desplazar (c : float) (a : perfil) : perfil :=
  map (fun x => x + c) a.

(** Two samples that are the same number: [x == y] of Python, or the
    same binary64 value (which also relates [nan] to itself). *)
Definition igual (x y : float) : Prop := x = y \/ (x =? y) = true.

(** Two numbers within [eps] of each other. *)
Definition aprox (eps x y : float) : bool := PrimFloat.abs (x - y) <=? eps.

(** A zero of either sign, or [nan]: what [x - y] is when [x] and [y] are
    the same number. *)
Definition nulo (x : float) : bool := is_nan x || (x =? 0).

(** The same test on the unpacked number. *)
Definition SFnulo (x : spec_float) : bool :=
  match x with
  | S754_nan | S754_zero _ => true
  | _ => false
  end.

End Binary64.

(** * The comparator in the words of the specification *)

(** The mean of a sequence: the sum of its samples over their number. *)
Definition media (a : perfil) : Q :=
  fold_right Qplus 0 a / inject_Z (Z.of_nat (length a)).

(** The absolute difference, at position [i], of the two sequences once
    each is centred on its own mean. *)
Definition diferencia_centrada (current master : perfil) (i : nat) : Q :=
  Qabs ((nth i current 0 - media current) - (nth i master 0 - media master)).

(** [d] is the maximum of [f 0 .. f (n-1)]. *)
Definition es_maximo (f : nat -> Q) (n : nat) (d : Q) : Prop :=
  (exists i, (i < n)%nat /\ f i == d) /\
  (forall i, (i < n)%nat -> f i <= d).

(** The steps of [Main3.comparar_perfiles] between the test of the lengths
    and the comparison with the threshold, under the names of its local
    variables. *)
Definition perfil_norm (a : perfil) : perfil := np.sub_escalar a (np.mean a).

Definition desviacion_maxima (perfil_actual maestro : perfil) : py Q :=
  py_bind (np.sub (perfil_norm perfil_actual) (perfil_norm maestro))
    (fun resta => np.amax (np.abs resta)).

(** Adding the constant [c] to every sample. *)
Definition desplazar (c : Q) (a : perfil) : perfil := map (fun x => x + c) a.

(** Sequences equal sample for sample, as numbers. *)
Definition perfil_eq : perfil -> perfil -> Prop := Forall2 Qeq.

(** Results equal up to the fraction that stands for the number. *)
Definition py_Qeq (u v : py Q) : Prop :=
  match u, v with
  | Ok d, Ok d' => d == d'
  | Exc e, Exc e' => e = e'
  | _, _ => False
  end.

(** Two numbers within [eps] of each other. *)
Definition aprox (eps x y : Q) : Prop := Qabs (x - y) <= eps.

(** * Reading a trace *)

(** A verdict put on the wire to the cobot. *)
Definition es_envio_cobot (ev : evento) : bool :=
  match ev with
  | CobotSendall _ => true
  | _ => false
  end.

(** A connection attempt, on either link. *)
Definition es_conexion (ev : evento) : bool :=
  match ev with
  | SensorConnect | CobotConnect => true
  | _ => false
  end.

(** A delay. *)
Definition es_espera (ev : evento) : bool :=
  match ev with
  | Sleep _ => true
  | _ => false
  end.

(** Traffic with the sensor on its open connection, or a log record. *)
Definition solo_sensor (ev : evento) : bool :=
  match ev with
  | Log _ _ | SensorSendall _ | SensorRecv => true
  | _ => false
  end.

(** * Sample runs of main.3.py *)

(** The system as [conectar()] leaves it when both peers answer: master
    [0,0,0], tolerance 0.5. *)
Definition sistema_conectado : Main3.SistemaInspeccion :=
  Main3.MkSistema (Some (Main3.MkCognex (Some SocketObj) true))
    (Some SocketObj) (Some [0; 0; 0]) 0.5.

(** The same with no master profile. *)
Definition sistema_sin_maestro : Main3.SistemaInspeccion :=
  Main3.MkSistema (Some (Main3.MkCognex (Some SocketObj) true))
    (Some SocketObj) None 0.5.

Definition ambos_responden : conexiones := Conexiones HsOk true.

(** The sensor refuses a new connection, the cobot would accept one. *)
Definition sensor_no_responde : conexiones := Conexiones HsFallaConnect true.

(** The cobot signals a part, the sensor answers with the failure status. *)
Definition env_sensor_falla : entorno :=
  Entorno RecvDatos (DialogoRespuesta "0" []) true ambos_responden.

(** The cobot closed its end. *)
Definition env_cobot_cerro : entorno :=
  Entorno RecvVacio (DialogoRespuesta "1" []) true sensor_no_responde.

(** The cobot closed its end; both peers accept a new connection. *)
Definition env_cobot_cerro_reconecta : entorno :=
  Entorno RecvVacio (DialogoRespuesta "1" []) true ambos_responden.

(** A defective part is measured, and the verdict cannot be sent. *)
Definition env_envio_falla : entorno :=
  Entorno RecvDatos (DialogoRespuesta "1" [Some 0; Some 0; Some 10]) false
    ambos_responden.

(** A good part is measured and the verdict is sent. *)
Definition env_pieza_buena : entorno :=
  Entorno RecvDatos
    (DialogoRespuesta "1" [Some 0.1; Some (-0.1); Some 0.2]) true
    ambos_responden.

(** The token a returned value selects in the cycle of main.3.py. *)
Definition comando_de (v : retorno) : string :=
  if truthy v then Main3.PIEZA_DEFECTUOSA else Main3.PIEZA_BUENA.

(** The record that follows a [sendall] to the cobot in main.3.py. *)
Definition registro_envio (envio_ok : bool) : evento :=
  if envio_ok then Log INFO 198 else Log ERROR 200.

(** Both links of the system of main.3.py hold a socket object. *)
Definition enlazado (s : Main3.SistemaInspeccion) : Prop :=
  (exists p sk, Main3.perfilometro s = Some p /\ Main3.socket p = Some sk) /\
  (exists sock, Main3.cobot_socket s = Some sock).

(** * The response of the sensor as text

    The part of [adquirir_perfil] (main.3.py, lines 82 to 99) between the
    request and the parsed parts.  The decoded text is a [string] whose
    characters are the code points below 256 (the native-mode protocol
    is ASCII). *)

(** [c.isspace()], the characters [str.strip()] removes: tab, line feed,
    vertical tab, form feed, carriage return, the four separators 28 to
    31, the space, next line (U+0085) and the no-break space (U+00A0). *)
Definition es_espacio (c : Ascii.ascii) : bool :=
  let n := Ascii.nat_of_ascii c in
  ((9 <=? n) && (n <=? 13) || (28 <=? n) && (n <=? 32)
   || (n =? 133) || (n =? 160))%nat.

(** [s.lstrip()] *)
Fixpoint py_lstrip (s : string) : string :=
  match s with
  | EmptyString => EmptyString
  | String c r => if es_espacio c then py_lstrip r else s
  end.

(** [s.rstrip()] *)
Fixpoint py_rstrip (s : string) : string :=
  match s with
  | EmptyString => EmptyString
  | String c r =>
      match py_rstrip r with
      | EmptyString => if es_espacio c then EmptyString else String c EmptyString
      | r' => String c r'
      end
  end.

(** [s.strip()] *)
Definition py_strip (s : string) : string := py_rstrip (py_lstrip s).

(** The last character of a text, if it has one. *)
Fixpoint ultimo (s : string) : option Ascii.ascii :=
  match s with
  | EmptyString => None
  | String c EmptyString => Some c
  | String _ r => ultimo r
  end.

(** [s.endswith(('0', '1'))]: the characters 48 and 49. *)
Definition termina_en_estado (s : string) : bool :=
  match ultimo s with
  | Some c => Ascii.eqb c (Ascii.ascii_of_nat 48)
              || Ascii.eqb c (Ascii.ascii_of_nat 49)
  | None => false
  end.

(** The receive loop of lines 83 to 90.  [chunks] are the outcomes of the
    successive [recv(4096).decode('utf-8')]: a text, or the exception
    raised; when they run out the next [recv] waits until the socket's
    timeout.  The result is [respuesta_completa] when the loop is left. *)
Fixpoint recibir_respuesta (chunks : list (py string))
    (respuesta_completa : string) : py string :=
  match chunks with
  | [] => Exc SocketTimeout
  | Exc e :: _ => Exc e
  | Ok data :: resto =>
      if String.eqb data EmptyString then Ok respuesta_completa
      else
        let respuesta_completa := (respuesta_completa ++ data)%string in
        if termina_en_estado (py_strip respuesta_completa)
        then Ok respuesta_completa
        else recibir_respuesta resto respuesta_completa
  end.

(** The verdicts put on the wire in a trace. *)
Definition envios (t : list evento) : list evento := filter es_envio_cobot t.

(** * Properties of the numpy layer *)

Section Numpy.

#[global] Instance perfil_eq_Equivalence : Equivalence perfil_eq.
Proof.
  split.
  - intros a. induction a; constructor; [reflexivity | assumption].
  - intros a b H. induction H; constructor; [symmetry |]; assumption.
  - intros a b c Hab. revert c.
    induction Hab as [| x y a b Hxy _ IH]; intros c Hbc; inversion Hbc; subst.
    + constructor.
    + constructor; [etransitivity; eassumption | apply IH; assumption].
Qed.

Lemma perfil_eq_length (a b : perfil) : perfil_eq a b -> length a = length b.
Proof. induction 1; simpl; congruence. Qed.

Lemma fold_left_Qplus_acc (a : perfil) (acc : Q) :
  fold_left Qplus a acc == acc + fold_left Qplus a 0.
Proof.
  revert acc. induction a as [| x a IH]; intros acc; simpl.
  - ring.
  - rewrite (IH (acc + x)), (IH (0 + x)). ring.
Qed.

Lemma sum_cons (x : Q) (a : perfil) : np.sum (x :: a) == x + np.sum a.
Proof.
  unfold np.sum. simpl. rewrite fold_left_Qplus_acc. ring.
Qed.

Lemma sum_fold_right (a : perfil) : np.sum a == fold_right Qplus 0 a.
Proof.
  induction a as [| x a IH].
  - reflexivity.
  - rewrite sum_cons, IH. reflexivity.
Qed.

Lemma mean_media (a : perfil) : np.mean a == media a.
Proof.
  unfold np.mean, media. rewrite sum_fold_right. reflexivity.
Qed.







Lemma length_perfil_norm (a : perfil) : length (perfil_norm a) = length a.
Proof. apply length_map. Qed.



Lemma Qmax_eq (x x' y y' : Q) : x == x' -> y == y' -> Qmax x y == Qmax x' y'.
Proof. intros Hx Hy. rewrite Hx, Hy. reflexivity. Qed.

Lemma fold_left_Qmax_eq (a a' : perfil) :
  perfil_eq a a' ->
  forall x x', x == x' -> fold_left Qmax a x == fold_left Qmax a' x'.
Proof.
  induction 1 as [| y y' a a' Hy _ IH]; intros x x' Hx; simpl.
  - exact Hx.
  - apply IH. apply Qmax_eq; assumption.
Qed.

(** [x > y] does not see which fraction stands for a number. *)
Lemma Qgt_bool_eq (x x' y y' : Q) :
  x == x' -> y == y' -> Qgt_bool x y = Qgt_bool x' y'.
Proof.
  intros Hx Hy. unfold Qgt_bool. rewrite Hx, Hy. reflexivity.
Qed.

Lemma Qgt_bool_true (x y : Q) : Qgt_bool x y = true <-> y < x.
Proof.
  unfold Qgt_bool. rewrite negb_true_iff.
  split.
  - intros H. apply Qnot_le_lt. intros Hle.
    apply Qle_bool_iff in Hle. congruence.
  - intros H. destruct (Qle_bool x y) eqn:E; [| reflexivity].
    apply Qle_bool_iff in E. exfalso. exact (Qlt_not_le _ _ H E).
Qed.

Lemma Qgt_bool_false (x y : Q) : Qgt_bool x y = false <-> x <= y.
Proof.
  unfold Qgt_bool. rewrite negb_false_iff. apply Qle_bool_iff.
Qed.

Lemma sub_mismo_largo (a b : perfil) :
  length a = length b -> np.sub a b = Ok (np.sub_zip a b).
Proof.
  intros H. unfold np.sub. rewrite H, Nat.eqb_refl. reflexivity.
Qed.

Lemma length_sub_zip (a b : perfil) :
  length a = length b -> length (np.sub_zip a b) = length a.
Proof.
  revert b. induction a as [| x a IH]; intros [| y b] H; simpl in *;
    try congruence.
  f_equal. apply IH. congruence.
Qed.

Lemma nth_sub_zip (a b : perfil) (i : nat) :
  length a = length b -> (i < length a)%nat ->
  nth i (np.sub_zip a b) 0 = nth i a 0 - nth i b 0.
Proof.
  revert b i. induction a as [| x a IH]; intros [| y b] i H Hi; simpl in *;
    try lia.
  destruct i as [| i]; [reflexivity |].
  apply IH; [congruence | lia].
Qed.

Lemma nth_sub_escalar (a : perfil) (s : Q) (i : nat) :
  (i < length a)%nat -> nth i (np.sub_escalar a s) 0 = nth i a 0 - s.
Proof.
  revert i. induction a as [| x a IH]; intros i Hi; simpl in *; [lia |].
  destruct i as [| i]; [reflexivity |].
  apply IH. lia.
Qed.

Lemma nth_abs (a : perfil) (i : nat) :
  (i < length a)%nat -> nth i (np.abs a) 0 = Qabs (nth i a 0).
Proof.
  revert i. induction a as [| x a IH]; intros i Hi; simpl in *; [lia |].
  destruct i as [| i]; [reflexivity |].
  apply IH. lia.
Qed.

(** The running maximum is above its start and above every element, and
    it is the start or one of the elements. *)
Lemma fold_left_Qmax_ge (a : perfil) (x : Q) :
  x <= fold_left Qmax a x /\
  (forall i, (i < length a)%nat -> nth i a 0 <= fold_left Qmax a x).
Proof.
  revert x. induction a as [| y a IH]; intros x; simpl.
  - split; [apply Qle_refl | intros i Hi; lia].
  - destruct (IH (Qmax x y)) as [H1 H2]. split.
    + eapply Qle_trans; [apply Q.le_max_l | exact H1].
    + intros [| i] Hi.
      * eapply Qle_trans; [apply Q.le_max_r | exact H1].
      * apply H2. lia.
Qed.

Lemma fold_left_Qmax_in (a : perfil) (x : Q) :
  fold_left Qmax a x == x \/
  (exists i, (i < length a)%nat /\ nth i a 0 == fold_left Qmax a x).
Proof.
  revert x. induction a as [| y a IH]; intros x; simpl.
  - left. reflexivity.
  - destruct (IH (Qmax x y)) as [H | [i [Hi H]]].
    + destruct (Q.max_spec x y) as [[_ E] | [_ E]].
      * right. exists 0%nat. split; [lia |]. rewrite H, E. reflexivity.
      * left. rewrite H, E. reflexivity.
    + right. exists (S i). split; [lia | exact H].
Qed.

(** [np.max] of a non-empty array is the maximum of its elements. *)
Lemma amax_es_maximo (a : perfil) :
  a <> [] ->
  exists d, np.amax a = Ok d /\ es_maximo (fun i => nth i a 0) (length a) d.
Proof.
  destruct a as [| x a]; [congruence |]. intros _.
  exists (fold_left Qmax a x). split; [reflexivity |].
  destruct (fold_left_Qmax_ge a x) as [H1 H2]. split.
  - destruct (fold_left_Qmax_in a x) as [H | [i [Hi H]]].
    + exists 0%nat. simpl. split; [lia | symmetry; exact H].
    + exists (S i). simpl. split; [lia | exact H].
  - intros [| i] Hi; simpl in *; [exact H1 | apply H2; lia].
Qed.

Lemma es_maximo_unico (f : nat -> Q) (n : nat) (d d' : Q) :
  es_maximo f n d -> es_maximo f n d' -> d == d'.
Proof.
  intros [[i [Hi Ei]] Hd] [[j [Hj Ej]] Hd'].
  apply Qle_antisym.
  - rewrite <- Ei. apply Hd'. exact Hi.
  - rewrite <- Ej. apply Hd. exact Hj.
Qed.

Lemma es_maximo_ext (f g : nat -> Q) (n : nat) (d : Q) :
  (forall i, (i < n)%nat -> f i == g i) -> es_maximo f n d -> es_maximo g n d.
Proof.
  intros E [[i [Hi Ei]] Hd]. split.
  - exists i. split; [exact Hi |]. rewrite <- (E i Hi). exact Ei.
  - intros j Hj. rewrite <- (E j Hj). apply Hd. exact Hj.
Qed.

End Numpy.

(** * The comparator of main.3.py *)

Section Comparador.

Import Main3.

(** The value [comparar_perfiles] returns, without the logging. *)
Lemma comparar_perfiles_valor (actual : perfil) (s : SistemaInspeccion) :
  valor (comparar_perfiles actual s) =
  match perfil_maestro s with
  | None => Ok None
  | Some maestro =>
      if negb (Nat.eqb (length maestro) (length actual)) then Ok DEFECTIVE
      else py_bind (desviacion_maxima actual maestro)
             (fun d => Ok (Some (Qgt_bool d (UMBRAL_TOLERANCIA s))))
  end.
Proof.
  unfold comparar_perfiles, desviacion_maxima, perfil_norm, bind, get. cbn.
  destruct (perfil_maestro s) as [maestro |]; cbn; [| reflexivity].
  destruct (negb (Nat.eqb (length maestro) (length actual))); cbn;
    [reflexivity |].
  destruct (np.sub _ _) as [resta | e]; cbn; [| reflexivity].
  destruct (np.amax (np.abs resta)) as [d | e]; cbn; [| reflexivity].
  destruct (Qgt_bool d (UMBRAL_TOLERANCIA s)); reflexivity.
Qed.

(** The comparator touches no attribute and its only effect is at most
    one log record. *)
Lemma comparar_perfiles_marco (actual : perfil) (s : SistemaInspeccion) :
  fin (comparar_perfiles actual s) = s /\
  (traza (comparar_perfiles actual s) = [] \/
   exists n l, traza (comparar_perfiles actual s) = [Log n l]).
Proof.
  unfold comparar_perfiles, bind, get. cbn.
  destruct (perfil_maestro s) as [maestro |]; cbn; [| eauto].
  destruct (negb (Nat.eqb (length maestro) (length actual))); cbn; [eauto |].
  destruct (np.sub _ _) as [resta | e]; cbn; [| eauto].
  destruct (np.amax (np.abs resta)) as [d | e]; cbn; [| eauto].
  destruct (Qgt_bool d (UMBRAL_TOLERANCIA s)); cbn; eauto.
Qed.

Lemma desviacion_maxima_mismo_largo (actual maestro : perfil) :
  length actual = length maestro ->
  desviacion_maxima actual maestro =
  np.amax (np.abs (np.sub_zip (perfil_norm actual) (perfil_norm maestro))).
Proof.
  intros H. unfold desviacion_maxima.
  rewrite sub_mismo_largo; [reflexivity |].
  rewrite !length_perfil_norm. exact H.
Qed.

Lemma amax_eq (a a' : perfil) : perfil_eq a a' -> py_Qeq (np.amax a) (np.amax a').
Proof.
  intros [| x x' r r' Hx Hr]; simpl.
  - reflexivity.
  - apply fold_left_Qmax_eq; assumption.
Qed.


Lemma veredicto_eq (u v : py Q) (tol : Q) :
  py_Qeq u v ->
  py_bind u (fun d => Ok (Some (Qgt_bool d tol))) =
  py_bind v (fun d => Ok (Some (Qgt_bool d tol))).
Proof.
  destruct u as [d | e], v as [d' | e']; simpl; try contradiction.
  - intros H. do 2 f_equal. apply Qgt_bool_eq; [exact H | reflexivity].
  - congruence.
Qed.

(** On profiles of one length that are not empty, the deviation is the
    maximum of the pointwise absolute differences of the centred
    sequences. *)
Lemma desviacion_maxima_es_maximo (actual maestro : perfil) :
  length actual = length maestro -> maestro <> [] ->
  exists d, desviacion_maxima actual maestro = Ok d /\
            es_maximo (diferencia_centrada actual maestro) (length actual) d.
Proof.
  intros L Hm.
  rewrite desviacion_maxima_mismo_largo by exact L.
  set (dif := np.abs (np.sub_zip (perfil_norm actual) (perfil_norm maestro))).
  assert (Ln : length (perfil_norm actual) = length (perfil_norm maestro))
    by (rewrite !length_perfil_norm; exact L).
  assert (Ld : length dif = length actual).
  { unfold dif, np.abs. rewrite length_map, length_sub_zip by exact Ln.
    apply length_perfil_norm. }
  assert (Hd : dif <> []).
  { intros E. rewrite E in Ld. simpl in Ld.
    destruct maestro; [congruence | simpl in L; lia]. }
  destruct (amax_es_maximo dif Hd) as [d [E Hmax]].
  exists d. split; [exact E |].
  rewrite Ld in Hmax.
  eapply es_maximo_ext; [| exact Hmax].
  intros i Hi. unfold dif, diferencia_centrada.
  rewrite nth_abs
    by (rewrite length_sub_zip by exact Ln; rewrite length_perfil_norm; exact Hi).
  rewrite nth_sub_zip by (rewrite ?length_perfil_norm; assumption).
  unfold perfil_norm.
  rewrite !nth_sub_escalar by lia.
  rewrite !mean_media. reflexivity.
Qed.

(** Profiles that coincide once centred are within every non-negative
    threshold. *)
Lemma comparar_centrados_iguales (actual maestro : perfil) (tol : Q)
    (p : option CognexPerfilometro) (c : option socket_t) :
  perfil_eq (perfil_norm actual) (perfil_norm maestro) ->
  maestro <> [] -> 0 <= tol ->
  valor (comparar_perfiles actual (MkSistema p c (Some maestro) tol)) = Ok GOOD.
Proof.
  intros Heq Hm Htol.
  assert (L : length actual = length maestro).
  { apply perfil_eq_length in Heq. rewrite !length_perfil_norm in Heq.
    exact Heq. }
  rewrite comparar_perfiles_valor. cbn [perfil_maestro UMBRAL_TOLERANCIA].
  rewrite L, Nat.eqb_refl. cbn [negb].
  destruct (desviacion_maxima_es_maximo actual maestro L Hm)
    as [d [E [[i [Hi Ei]] _]]].
  rewrite E. cbn [py_bind]. unfold GOOD.
  enough (G : Qgt_bool d tol = false) by (rewrite G; reflexivity).
  apply Qgt_bool_false.
  rewrite <- Ei. unfold diferencia_centrada.
  assert (Z : nth i actual 0 - media actual - (nth i maestro 0 - media maestro) == 0).
  { assert (Hn : nth i (perfil_norm actual) 0 == nth i (perfil_norm maestro) 0).
    { clear - Heq. revert i.
      induction Heq as [| x y a b Hxy _ IH]; intros [| i]; simpl;
        try reflexivity; [exact Hxy | apply IH]. }
    unfold perfil_norm in Hn.
    rewrite !nth_sub_escalar, !mean_media in Hn by lia.
    rewrite Hn. ring. }
  rewrite Z. exact Htol.
Qed.

End Comparador.

Section ComparadorClaims.

Import Main3.

Lemma sum_eq (a b : perfil) : perfil_eq a b -> np.sum a == np.sum b.
Proof.
  induction 1 as [| x y a b Hxy _ IH].
  - reflexivity.
  - rewrite !sum_cons, Hxy, IH. reflexivity.
Qed.

Lemma perfil_norm_eq (a b : perfil) :
  perfil_eq a b -> perfil_eq (perfil_norm a) (perfil_norm b).
Proof.
  intros H.
  assert (Hm : np.mean a == np.mean b).
  { unfold np.mean. rewrite (sum_eq a b H), (perfil_eq_length a b H).
    reflexivity. }
  unfold perfil_norm. revert Hm. generalize (np.mean a) (np.mean b).
  intros s t Hst.
  induction H as [| x y a b Hxy _ IH]; simpl; constructor.
  - rewrite Hxy, Hst. reflexivity.
  - exact IH.
Qed.

(** C1: when the current profile and the master profile have different
    lengths, [comparar_perfiles] returns [True] (DEFECTIVE), whatever
    the samples and whatever the tolerance. *)
Theorem C1_size_mismatch_defective
    (current master : perfil) (tol : Q)
    (p : option CognexPerfilometro) (c : option socket_t) :
  length current <> length master ->
  valor (comparar_perfiles current (MkSistema p c (Some master) tol))
  = Ok DEFECTIVE.
Proof.
  intros H. rewrite comparar_perfiles_valor. cbn [perfil_maestro].
  destruct (Nat.eqb_spec (length master) (length current)) as [E | _].
  - congruence.
  - reflexivity.
Qed.

Lemma C1_size_mismatch_defective_witness :
  length [1; 2] <> length [0; 0; 0] /\
  valor (comparar_perfiles [1; 2]
           (MkSistema None None (Some [0; 0; 0]) 0.5)) = Ok DEFECTIVE.
Proof.
  split.
  - simpl. lia.
  - apply (C1_size_mismatch_defective [1; 2] [0; 0; 0] 0.5 None None).
    simpl. lia.
Defined.


(** In exact arithmetic, for profiles of one length whose centred
    sequences differ pointwise by at most [d], with [d] attained,
    [comparar_perfiles] returns [True] (DEFECTIVE) exactly when [d] is
    strictly greater than the tolerance, and [False] (GOOD) exactly when
    it is not. *)
Lemma comparar_perfiles_es_maximo
    (current master : perfil) (tol d : Q)
    (p : option CognexPerfilometro) (c : option socket_t) :
  length current = length master ->
  es_maximo (diferencia_centrada current master) (length current) d ->
  let v := valor (comparar_perfiles current (MkSistema p c (Some master) tol)) in
  (v = Ok DEFECTIVE <-> tol < d) /\
  (v = Ok GOOD <-> d <= tol) /\
  (d == tol -> v = Ok GOOD).
Proof.
  intros L Hd v.
  assert (Hm : master <> []).
  { intros E. destruct Hd as [[i [Hi _]] _].
    rewrite L, E in Hi. simpl in Hi. lia. }
  destruct (desviacion_maxima_es_maximo current master L Hm) as [d' [E Hd']].
  assert (Edd : d' == d) by (eapply es_maximo_unico; eassumption).
  assert (Hv : v = Ok (Some (Qgt_bool d tol))).
  { unfold v. rewrite comparar_perfiles_valor.
    cbn [perfil_maestro UMBRAL_TOLERANCIA].
    rewrite L, Nat.eqb_refl, E. cbn [negb py_bind].
    rewrite (Qgt_bool_eq d' d tol tol Edd (Qeq_refl tol)). reflexivity. }
  assert (G : v = Ok GOOD <-> d <= tol).
  { rewrite Hv. unfold GOOD. rewrite <- Qgt_bool_false.
    split; [intros H; congruence | intros H; rewrite H; reflexivity]. }
  split; [| split].
  - rewrite Hv. unfold DEFECTIVE. rewrite <- Qgt_bool_true.
    split; [intros H; congruence | intros H; rewrite H; reflexivity].
  - exact G.
  - intros H. apply G. rewrite H. apply Qle_refl.
Qed.

End ComparadorClaims.

(** * Binary64 numbers: the order, [nan] and the zeros *)

Section Binary64Orden.

Local Open Scope float_scope.

(** The comparisons of [SpecFloat], settled case by case. *)
Ltac por_casos :=
  unfold SFleb, SFltb, SFeqb, SFcompare;
  repeat match goal with
         | x : spec_float |- _ => destruct x
         end;
  repeat match goal with
         | s : bool |- _ => destruct s
         end;
  try discriminate; try reflexivity; try congruence;
  repeat match goal with
         | |- context [Z.compare ?a ?b] =>
             destruct (Z.compare_spec a b)
         end;
  try discriminate; try reflexivity; try lia;
  change (Pos.compare_cont Eq) with Pos.compare;
  repeat match goal with
         | |- context [Pos.compare ?a ?b] =>
             destruct (Pos.compare_spec a b)
         end;
  simpl; try discriminate; try reflexivity; try lia.

Lemma SFleb_refl (x : spec_float) : x <> S754_nan -> SFleb x x = true.
Proof. intros Hx. por_casos. Qed.

Lemma SFleb_trans (x y z : spec_float) :
  SFleb x y = true -> SFleb y z = true -> SFleb x z = true.
Proof. por_casos. Qed.

Lemma SFltb_leb_trans (x y z : spec_float) :
  SFltb x y = true -> SFleb y z = true -> SFltb x z = true.
Proof. por_casos. Qed.

Lemma SFleb_total (x y : spec_float) :
  x <> S754_nan -> y <> S754_nan -> SFleb x y = false -> SFleb y x = true.
Proof. intros Hx Hy. por_casos. Qed.

Lemma SFleb_antisym (x y : spec_float) :
  SFleb x y = true -> SFleb y x = true -> SFeqb x y = true.
Proof. por_casos. Qed.

Lemma SFeqb_ltb_r (t x y : spec_float) :
  SFeqb x y = true -> SFltb t x = SFltb t y.
Proof. por_casos. Qed.

Lemma SFeqb_ltb_false (t x : spec_float) :
  SFeqb x t = true -> SFltb t x = false.
Proof. por_casos. Qed.

Lemma SFeqb_nan (x : spec_float) : SFeqb x x = false <-> x = S754_nan.
Proof.
  split.
  - intros H. destruct x as [s | s | | s m e]; try reflexivity; exfalso;
      revert H; por_casos.
  - intros ->. reflexivity.
Qed.

Lemma SFabs_no_negativo (x : spec_float) :
  x <> S754_nan -> SFleb (S754_zero false) (SFabs x) = true.
Proof. intros Hx. destruct x; try congruence; reflexivity. Qed.

Lemma SFsub_diag (x : spec_float) : Binary64.SFnulo (SF64sub x x) = true.
Proof.
  destruct x as [s | s | | s m e]; try (destruct s; reflexivity);
    try reflexivity.
  unfold SF64sub, SFsub. rewrite Z.sub_diag. reflexivity.
Qed.

Lemma SFeqb_eq (x y : spec_float) :
  SFeqb x y = true ->
  x = y \/ exists s s', x = S754_zero s /\ y = S754_zero s'.
Proof.
  unfold SFeqb, SFcompare.
  change (Pos.compare_cont Eq) with Pos.compare.
  destruct x as [sx | sx | | sx mx ex], y as [sy | sy | | sy my ey];
    try discriminate;
    try (destruct sx; discriminate); try (destruct sy; discriminate).
  - intros _. right. eauto.
  - destruct sx, sy; try discriminate; auto.
  - destruct sx, sy; try discriminate;
      destruct (Z.compare_spec ex ey); try discriminate;
      destruct (Pos.compare_spec mx my); try discriminate;
      intros _; left; congruence.
Qed.

Lemma SFsub_eqb (x y : spec_float) :
  SFeqb x y = true -> Binary64.SFnulo (SF64sub x y) = true.
Proof.
  intros H. destruct (SFeqb_eq x y H) as [-> | [s [s' [-> ->]]]].
  - apply SFsub_diag.
  - destruct s, s'; reflexivity.
Qed.

Lemma SFnulo_ltb (t d : spec_float) :
  Binary64.SFnulo d = true -> SFleb (S754_zero false) t = true -> SFltb t d = false.
Proof. por_casos. Qed.

(** The same facts on the primitive numbers. *)

Lemma is_nan_spec (x : float) : is_nan x = true <-> Prim2SF x = S754_nan.
Proof.
  unfold is_nan. rewrite FloatAxioms.eqb_spec, negb_true_iff.
  apply SFeqb_nan.
Qed.

Lemma is_nan_false (x : float) : is_nan x = false <-> Prim2SF x <> S754_nan.
Proof.
  rewrite <- is_nan_spec. destruct (is_nan x); split; congruence.
Qed.

Lemma leb_refl (x : float) : is_nan x = false -> (x <=? x) = true.
Proof. rewrite is_nan_false, leb_spec. apply SFleb_refl. Qed.

Lemma leb_nan_l (x y : float) : is_nan x = true -> (x <=? y) = false.
Proof. rewrite is_nan_spec, leb_spec. intros ->. reflexivity. Qed.

Lemma leb_nan_r (x y : float) : is_nan y = true -> (x <=? y) = false.
Proof.
  rewrite is_nan_spec, leb_spec. intros ->.
  destruct (Prim2SF x); reflexivity.
Qed.

Lemma ltb_nan_r (x y : float) : is_nan y = true -> (x <? y) = false.
Proof.
  rewrite is_nan_spec, ltb_spec. intros ->.
  destruct (Prim2SF x); reflexivity.
Qed.

Lemma leb_trans (x y z : float) :
  (x <=? y) = true -> (y <=? z) = true -> (x <=? z) = true.
Proof. rewrite !leb_spec. apply SFleb_trans. Qed.

Lemma ltb_leb_trans (x y z : float) :
  (x <? y) = true -> (y <=? z) = true -> (x <? z) = true.
Proof. rewrite !ltb_spec, leb_spec. apply SFltb_leb_trans. Qed.

Lemma leb_total (x y : float) :
  is_nan x = false -> is_nan y = false ->
  (x <=? y) = false -> (y <=? x) = true.
Proof. rewrite !is_nan_false, !leb_spec. apply SFleb_total. Qed.

Lemma leb_antisym (x y : float) :
  (x <=? y) = true -> (y <=? x) = true -> (x =? y) = true.
Proof. rewrite !leb_spec, FloatAxioms.eqb_spec. apply SFleb_antisym. Qed.

Lemma eqb_ltb_r (t x y : float) :
  (x =? y) = true -> (t <? x) = (t <? y).
Proof. rewrite FloatAxioms.eqb_spec, !ltb_spec. apply SFeqb_ltb_r. Qed.

Lemma eqb_ltb_false (t x : float) : (x =? t) = true -> (t <? x) = false.
Proof. rewrite FloatAxioms.eqb_spec, ltb_spec. apply SFeqb_ltb_false. Qed.

Lemma abs_no_negativo (x : float) :
  is_nan x = false -> (0 <=? PrimFloat.abs x) = true.
Proof.
  rewrite is_nan_false, leb_spec, abs_spec. apply SFabs_no_negativo.
Qed.

Lemma is_nan_abs (x : float) : is_nan (PrimFloat.abs x) = is_nan x.
Proof.
  apply eq_true_iff_eq. rewrite !is_nan_spec, abs_spec.
  destruct (Prim2SF x); simpl; split; congruence.
Qed.

Lemma nulo_spec (x : float) : Binary64.nulo x = Binary64.SFnulo (Prim2SF x).
Proof.
  unfold Binary64.nulo, is_nan. rewrite !FloatAxioms.eqb_spec.
  change (Prim2SF 0) with (S754_zero false).
  destruct (Prim2SF x) as [s | s | | s m e] eqn:E; try reflexivity.
  - destruct s; reflexivity.
  - assert (H : SFeqb (S754_finite s m e) (S754_finite s m e) = true).
    { destruct (SFeqb _ _) eqn:F; [reflexivity |].
      apply SFeqb_nan in F. discriminate. }
    rewrite H. destruct s; reflexivity.
Qed.

Lemma sub_igual_nulo (x y : float) :
  Binary64.igual x y -> Binary64.nulo (x - y) = true.
Proof.
  rewrite nulo_spec, sub_spec. intros [-> | H].
  - apply SFsub_diag.
  - apply SFsub_eqb. rewrite <- FloatAxioms.eqb_spec. exact H.
Qed.

Lemma abs_nulo (x : float) :
  Binary64.nulo x = true -> Binary64.nulo (PrimFloat.abs x) = true.
Proof.
  rewrite !nulo_spec, abs_spec. destruct (Prim2SF x); simpl; congruence.
Qed.

Lemma nulo_ltb (t d : float) :
  Binary64.nulo d = true -> (0 <=? t) = true -> (t <? d) = false.
Proof.
  rewrite nulo_spec, leb_spec, ltb_spec.
  change (Prim2SF 0) with (S754_zero false). apply SFnulo_ltb.
Qed.

End Binary64Orden.

(** * The comparator of main.3.py on binary64 samples *)

Section Binary64Comparador.

Local Open Scope float_scope.

(** The recursion of the pairwise sum never reaches its bound: any two
    bounds that are at least the length of the array give one sum. *)
Lemma pairwise_sum_profundidad (k : nat) :
  forall (k' : nat) (a : Binary64.perfil),
    (length a <= k)%nat -> (length a <= k')%nat ->
    Binary64.np.pairwise_sum k a = Binary64.np.pairwise_sum k' a.
Proof.
  induction k as [| k IH]; intros k' a Hk Hk'.
  - destruct a; [| simpl in Hk; lia]. destruct k'; reflexivity.
  - destruct k' as [| k'].
    + destruct a; [| simpl in Hk'; lia]. reflexivity.
    + cbn [Binary64.np.pairwise_sum].
      destruct (length a <? 8)%nat eqn:E8; [reflexivity |].
      destruct (length a <=? 128)%nat eqn:E128; [reflexivity |].
      apply Nat.ltb_ge in E8. apply Nat.leb_gt in E128.
      set (n := length a) in *.
      set (n2 := (n / 2 - (n / 2) mod 8)%nat).
      assert (H2 : (64 <= n / 2)%nat)
        by (apply Nat.div_le_lower_bound; lia).
      assert (H3 : (n / 2 <= n)%nat) by (apply Nat.Div0.div_le_upper_bound; lia).
      assert (H3' : (2 * (n / 2) <= n)%nat) by (apply Nat.Div0.mul_div_le).
      assert (H4 : ((n / 2) mod 8 < 8)%nat) by (apply Nat.mod_upper_bound; lia).
      assert (Hn2 : (1 <= n2 < n)%nat) by (unfold n2; lia).
      assert (L1 : length (firstn n2 a) = n2)
        by (rewrite length_firstn; fold n; lia).
      assert (L2 : length (skipn n2 a) = (n - n2)%nat)
        by (rewrite length_skipn; reflexivity).
      rewrite (IH k' (firstn n2 a)) by lia.
      rewrite (IH k' (skipn n2 a)) by lia.
      reflexivity.
Qed.
(** Fewer than eight samples are added one after the other, from 0. *)
Lemma sum_corto (a : Binary64.perfil) :
  (length a < 8)%nat ->
  Binary64.np.sum a = (0 + fold_left PrimFloat.add a 0)%float.
Proof.
  intros H. unfold Binary64.np.sum. apply Nat.ltb_lt in H.
  destruct (length a) as [| k] eqn:E; cbn [Binary64.np.pairwise_sum];
    rewrite E, H; reflexivity.
Qed.

Lemma length_perfil_norm64 (a : Binary64.perfil) :
  length (Binary64.perfil_norm a) = length a.
Proof. unfold Binary64.perfil_norm, Binary64.np.sub_escalar. apply length_map. Qed.


Lemma sub_mismo_largo64 (a b : Binary64.perfil) :
  length a = length b ->
  Binary64.np.sub a b = Ok (Binary64.np.sub_zip a b).
Proof. intros H. unfold Binary64.np.sub. rewrite H, Nat.eqb_refl. reflexivity. Qed.

Lemma abs_sub_zip64 (a b : Binary64.perfil) :
  Binary64.np.abs (Binary64.np.sub_zip a b) = Binary64.diferencias_absolutas a b.
Proof.
  revert b. induction a as [| x a IH]; intros [| y b]; try reflexivity.
  unfold Binary64.diferencias_absolutas in *. simpl. f_equal. apply IH.
Qed.

(** The value [comparar_perfiles] returns, without the logging. *)
Lemma comparar_perfiles64_valor
    (actual : Binary64.perfil) (s : Binary64.SistemaInspeccion) :
  valor (Binary64.comparar_perfiles actual s) =
  match Binary64.perfil_maestro s with
  | None => Ok None
  | Some maestro =>
      if negb (Nat.eqb (length maestro) (length actual)) then Ok DEFECTIVE
      else py_bind (Binary64.desviacion_maxima actual maestro)
             (fun d => Ok (Some (Binary64.UMBRAL_TOLERANCIA s <? d)))
  end.
Proof.
  unfold Binary64.comparar_perfiles, Binary64.desviacion_maxima,
    Binary64.perfil_norm, bind, get. cbn.
  destruct (Binary64.perfil_maestro s) as [maestro |]; cbn; [| reflexivity].
  destruct (negb (Nat.eqb (length maestro) (length actual))); cbn;
    [reflexivity |].
  destruct (Binary64.np.sub _ _) as [resta | e]; cbn; [| reflexivity].
  destruct (Binary64.np.amax (Binary64.np.abs resta)) as [d | e]; cbn;
    [| reflexivity].
  destruct (Binary64.UMBRAL_TOLERANCIA s <? d); reflexivity.
Qed.

(** On profiles of one length the deviation is the [np.max] of the
    absolute pointwise differences of the two centred arrays. *)
Lemma desviacion_maxima64_mismo_largo (actual maestro : Binary64.perfil) :
  length actual = length maestro ->
  Binary64.desviacion_maxima actual maestro =
  Binary64.np.amax
    (Binary64.diferencias_absolutas
       (Binary64.perfil_norm actual) (Binary64.perfil_norm maestro)).
Proof.
  intros H. unfold Binary64.desviacion_maxima.
  rewrite sub_mismo_largo64 by (rewrite !length_perfil_norm64; exact H).
  cbn [py_bind]. rewrite abs_sub_zip64. reflexivity.
Qed.

Lemma es_maximo_uno (x : float) : Binary64.es_maximo [x] x.
Proof.
  split; [left; reflexivity |]. cbn [existsb forallb].
  rewrite orb_false_r, andb_true_r.
  destruct (is_nan x) eqn:E; [reflexivity | apply leb_refl; exact E].
Qed.

(** One step of [np.max]. *)
Lemma maximum_paso (vistos : Binary64.perfil) (acc y : float) :
  Binary64.es_maximo vistos acc ->
  Binary64.es_maximo (vistos ++ [y]) (Binary64.np.maximum acc y).
Proof.
  intros [Hin Hmax]. unfold Binary64.es_maximo.
  rewrite existsb_app, forallb_app. cbn [existsb forallb].
  rewrite orb_false_r, andb_true_r.
  destruct (is_nan acc) eqn:Na.
  - assert (M : Binary64.np.maximum acc y = acc)
      by (unfold Binary64.np.maximum; rewrite Na, orb_true_r; reflexivity).
    rewrite M. split; [apply in_or_app; left; exact Hin |].
    assert (E : existsb is_nan vistos = true)
      by (apply existsb_exists; exists acc; split; assumption).
    rewrite E. exact Na.
  - destruct (existsb is_nan vistos) eqn:E; [congruence |].
    cbn [orb].
    destruct (is_nan y) eqn:Ny.
    + assert (M : Binary64.np.maximum acc y = y)
        by (unfold Binary64.np.maximum;
            rewrite Na, (leb_nan_l y acc Ny); reflexivity).
      rewrite M.
      split; [apply in_or_app; right; left; reflexivity | exact Ny].
    + destruct (y <=? acc) eqn:Le.
      * assert (M : Binary64.np.maximum acc y = acc)
          by (unfold Binary64.np.maximum; rewrite Le; reflexivity).
        rewrite M. split; [apply in_or_app; left; exact Hin |].
        rewrite Hmax, Le. reflexivity.
      * assert (M : Binary64.np.maximum acc y = y)
          by (unfold Binary64.np.maximum; rewrite Le, Na; reflexivity).
        rewrite M.
        split; [apply in_or_app; right; left; reflexivity |].
        rewrite (leb_refl y Ny), andb_true_r.
        apply forallb_forall. intros x Hx.
        apply leb_trans with acc.
        -- rewrite forallb_forall in Hmax. apply Hmax. exact Hx.
        -- apply leb_total; assumption.
Qed.

Lemma fold_maximum_es_maximo (r vistos : Binary64.perfil) (acc : float) :
  Binary64.es_maximo vistos acc ->
  Binary64.es_maximo (vistos ++ r) (fold_left Binary64.np.maximum r acc).
Proof.
  revert vistos acc. induction r as [| y r IH]; intros vistos acc H.
  - rewrite app_nil_r. exact H.
  - cbn [fold_left].
    replace (vistos ++ y :: r) with ((vistos ++ [y]) ++ r)
      by (rewrite <- app_assoc; reflexivity).
    apply IH, maximum_paso, H.
Qed.

(** [np.max] of an array that is not empty is its maximum; a [nan] in
    the array comes out. *)
Lemma amax_es_maximo64 (l : Binary64.perfil) :
  l <> [] ->
  exists d, Binary64.np.amax l = Ok d /\ Binary64.es_maximo l d.
Proof.
  destruct l as [| x r]; [congruence |]. intros _.
  exists (fold_left Binary64.np.maximum r x). split; [reflexivity |].
  apply (fold_maximum_es_maximo r [x] x), es_maximo_uno.
Qed.

(** Two maxima of one array are on the same side of every threshold. *)
Lemma es_maximo_ltb (l : Binary64.perfil) (d d' t : float) :
  Binary64.es_maximo l d -> Binary64.es_maximo l d' ->
  (t <? d) = (t <? d').
Proof.
  intros [Hin H] [Hin' H'].
  destruct (existsb is_nan l).
  - rewrite !ltb_nan_r by assumption. reflexivity.
  - rewrite forallb_forall in H, H'.
    apply eqb_ltb_r, leb_antisym; [apply H' | apply H]; assumption.
Qed.

(** The value returned on profiles of one length, from any maximum of
    the differences. *)
Lemma comparar_perfiles64_maximo
    (actual maestro : Binary64.perfil) (tol d : float)
    (p : option Main3.CognexPerfilometro) (c : option socket_t) :
  length actual = length maestro ->
  Binary64.es_maximo
    (Binary64.diferencias_absolutas
       (Binary64.perfil_norm actual) (Binary64.perfil_norm maestro)) d ->
  Binary64.desviacion_maxima actual maestro <> Exc ValueError /\
  valor (Binary64.comparar_perfiles actual
           (Binary64.MkSistema p c (Some maestro) tol))
  = Ok (Some (tol <? d)).
Proof.
  intros L Hd.
  rewrite comparar_perfiles64_valor.
  cbn [Binary64.perfil_maestro Binary64.UMBRAL_TOLERANCIA].
  rewrite L, Nat.eqb_refl. cbn [negb].
  rewrite desviacion_maxima64_mismo_largo by exact L.
  destruct (amax_es_maximo64
              (Binary64.diferencias_absolutas
                 (Binary64.perfil_norm actual) (Binary64.perfil_norm maestro)))
    as [d0 [E Hd0]].
  { intros E. destruct Hd as [Hin _]. rewrite E in Hin. exact Hin. }
  rewrite E. cbn [py_bind]. split; [discriminate |].
  rewrite (es_maximo_ltb _ d0 d tol Hd0 Hd). reflexivity.
Qed.

Lemma diferencias_absolutas_nulo (a b : Binary64.perfil) :
  Forall2 Binary64.igual a b ->
  Forall (fun x => Binary64.nulo x = true) (Binary64.diferencias_absolutas a b).
Proof.
  unfold Binary64.diferencias_absolutas.
  induction 1 as [| x y a b Hxy _ IH]; cbn [combine map]; constructor.
  - cbn [fst snd]. apply abs_nulo, sub_igual_nulo, Hxy.
  - exact IH.
Qed.

Lemma diferencias_absolutas_no_vacio (a b : Binary64.perfil) :
  length a = length b -> b <> [] -> Binary64.diferencias_absolutas a b <> [].
Proof.
  destruct a as [| x a], b as [| y b]; simpl; intros L H; try congruence.
  discriminate.
Qed.

(** Profiles that coincide once centred are within every threshold that
    is not negative. *)
Lemma comparar64_centrados_iguales
    (actual maestro : Binary64.perfil) (tol : float)
    (p : option Main3.CognexPerfilometro) (c : option socket_t) :
  Forall2 Binary64.igual
    (Binary64.perfil_norm actual) (Binary64.perfil_norm maestro) ->
  maestro <> [] -> (0 <=? tol) = true ->
  valor (Binary64.comparar_perfiles actual
           (Binary64.MkSistema p c (Some maestro) tol)) = Ok GOOD.
Proof.
  intros Heq Hm Htol.
  assert (L : length actual = length maestro).
  { apply Forall2_length in Heq. rewrite !length_perfil_norm64 in Heq.
    exact Heq. }
  set (dif := Binary64.diferencias_absolutas
                (Binary64.perfil_norm actual) (Binary64.perfil_norm maestro)).
  destruct (amax_es_maximo64 dif) as [d [_ Hd]].
  { apply diferencias_absolutas_no_vacio.
    - rewrite !length_perfil_norm64. exact L.
    - intros E. apply Hm. apply length_zero_iff_nil.
      rewrite <- (length_perfil_norm64 maestro), E. reflexivity. }
  destruct (comparar_perfiles64_maximo actual maestro tol d p c L Hd)
    as [_ ->].
  enough (G : (tol <? d) = false) by (rewrite G; reflexivity).
  apply nulo_ltb; [| exact Htol].
  pose proof (diferencias_absolutas_nulo _ _ Heq) as Hn.
  rewrite Forall_forall in Hn. apply Hn. apply Hd.
Qed.

(** Every entry of the differences is [nan] or at least zero. *)
Lemma diferencias_absolutas_no_negativas (a b : Binary64.perfil) (x : float) :
  In x (Binary64.diferencias_absolutas a b) ->
  is_nan x = false -> (0 <=? x) = true.
Proof.
  unfold Binary64.diferencias_absolutas. intros H.
  apply in_map_iff in H. destruct H as [[u v] [<- _]]. cbn [fst snd].
  rewrite is_nan_abs. apply abs_no_negativo.
Qed.

End Binary64Comparador.

(** * The verdict of main.3.py as numpy computes it *)

Section Binary64Claims.

#[local] Set Warnings "-inexact-float".




(** C6 as stated fails: with master [0,4,0], current [0,0,1] and
    tolerance 3 the maximum absolute difference of the centred
    sequences is 3, which is not greater than the tolerance, and in
    exact arithmetic the comparator returns [False]; numpy computes the
    deviation 3.0000000000000004 and [comparar_perfiles] returns [True]
    (DEFECTIVE). *)
Lemma C6_boundary_counterexample :
  length [0; 0; 1]%float = length [0; 4; 0]%float /\
  es_maximo (diferencia_centrada [0; 0; 1] [0; 4; 0]) 3 3 /\
  ~ 3 < 3 /\
  valor (Main3.comparar_perfiles [0; 0; 1]
           (Main3.MkSistema None None (Some [0; 4; 0]) 3)) = Ok GOOD /\
  Binary64.desviacion_maxima [0; 0; 1]%float [0; 4; 0]%float
  = Ok 3.0000000000000004%float /\
  valor (Binary64.comparar_perfiles [0; 0; 1]%float
           (Binary64.MkSistema None None (Some [0; 4; 0]%float) 3%float))
  = Ok DEFECTIVE.
Proof.
  split; [reflexivity |]. split; [| split; [| split; [| split]]].
  - split.
    + exists 1%nat. split; [simpl; lia | vm_compute; reflexivity].
    + intros i Hi.
      destruct i as [| [| [| i]]]; try (simpl in Hi; lia);
        apply Qle_bool_iff; vm_compute; reflexivity.
  - apply Qlt_irrefl.
  - rewrite comparar_perfiles_valor. vm_compute. reflexivity.
  - vm_compute. reflexivity.
  - vm_compute. reflexivity.
Qed.

(** C6, amended: for profiles of one length, [comparar_perfiles] returns
    [True] (DEFECTIVE) exactly when the maximum [d] of the absolute
    pointwise differences of the two centred arrays, all computed in
    binary64 as numpy does, is strictly greater than the tolerance, and
    [False] (GOOD) otherwise; a computed deviation equal to the
    tolerance gives GOOD, and so does a deviation that is [nan]. *)
Theorem C6_defective_iff_computed_deviation_exceeds
    (current master : Binary64.perfil) (tol d : float)
    (p : option Main3.CognexPerfilometro) (c : option socket_t) :
  length current = length master ->
  Binary64.es_maximo
    (Binary64.diferencias_absolutas
       (Binary64.perfil_norm current) (Binary64.perfil_norm master)) d ->
  let v := valor (Binary64.comparar_perfiles current
                    (Binary64.MkSistema p c (Some master) tol)) in
  (v = Ok DEFECTIVE <-> (tol <? d)%float = true) /\
  (v = Ok GOOD <-> (tol <? d)%float = false) /\
  ((d =? tol)%float = true -> v = Ok GOOD) /\
  (is_nan d = true -> v = Ok GOOD).
Proof.
  intros L Hd v.
  destruct (comparar_perfiles64_maximo current master tol d p c L Hd)
    as [_ Hv].
  fold v in Hv. rewrite Hv. unfold DEFECTIVE, GOOD.
  split; [| split; [| split]].
  - split; [intros H; congruence | intros ->; reflexivity].
  - split; [intros H; congruence | intros ->; reflexivity].
  - intros H. rewrite (eqb_ltb_false tol d H). reflexivity.
  - intros H. rewrite (ltb_nan_r tol d H). reflexivity.
Qed.

Lemma C6_defective_iff_computed_deviation_exceeds_witness :
  let v := valor (Binary64.comparar_perfiles [0; 0; 3]%float
                    (Binary64.MkSistema None None (Some [0; 0; 0]%float)
                       0.5%float)) in
  (v = Ok DEFECTIVE <-> (0.5 <? 2)%float = true) /\
  (v = Ok GOOD <-> (0.5 <? 2)%float = false) /\
  ((2 =? 0.5)%float = true -> v = Ok GOOD) /\
  (is_nan 2%float = true -> v = Ok GOOD).
Proof.
  apply (C6_defective_iff_computed_deviation_exceeds
           [0; 0; 3]%float [0; 0; 0]%float 0.5%float 2%float None None).
  - reflexivity.
  - split.
    + vm_compute. right. right. left. reflexivity.
    + vm_compute. reflexivity.
Defined.

(** C7 as stated fails: master [1,1,2] and current [0,0,1] are equal
    once centred (both are [-1/3,-1/3,2/3]), but numpy computes two
    different centred arrays, a deviation of about 5.55e-17, and under
    tolerance 0 [comparar_perfiles] returns [True] (DEFECTIVE); and an
    empty profile compared with itself gives no verdict at all: [np.max]
    raises [ValueError]. *)
Lemma C7_equal_after_centering_counterexample :
  perfil_eq (perfil_norm [0; 0; 1]) (perfil_norm [1; 1; 2]) /\
  (0 <=? 0)%float = true /\
  valor (Binary64.comparar_perfiles [0; 0; 1]%float
           (Binary64.MkSistema None None (Some [1; 1; 2]%float) 0%float))
  = Ok DEFECTIVE /\
  valor (Binary64.comparar_perfiles [0; 0; 1]%float
           (Binary64.MkSistema None None (Some [1; 1; 2]%float) 0%float))
  <> Ok GOOD /\
  valor (Binary64.comparar_perfiles []
           (Binary64.MkSistema None None (Some []) 0%float))
  = Exc ValueError.
Proof.
  split; [vm_compute; repeat constructor |].
  vm_compute. repeat split. discriminate.
Qed.

(** C7, amended: when the master profile is not empty and the tolerance
    is not negative, a current profile whose centred array, as numpy
    computes it, equals the centred master sample for sample is GOOD;
    in particular a current profile that is the master sample for
    sample is GOOD. *)
Theorem C7_equal_computed_centering_good
    (current master : Binary64.perfil) (tol : float)
    (p : option Main3.CognexPerfilometro) (c : option socket_t) :
  master <> [] -> (0 <=? tol)%float = true ->
  (Forall2 Binary64.igual
     (Binary64.perfil_norm current) (Binary64.perfil_norm master) ->
   valor (Binary64.comparar_perfiles current
            (Binary64.MkSistema p c (Some master) tol)) = Ok GOOD) /\
  (current = master ->
   valor (Binary64.comparar_perfiles current
            (Binary64.MkSistema p c (Some master) tol)) = Ok GOOD).
Proof.
  intros Hm Htol. split; intros H.
  - apply comparar64_centrados_iguales; assumption.
  - apply comparar64_centrados_iguales; try assumption.
    rewrite H. clear. induction (Binary64.perfil_norm master) as [| x l IH];
      constructor; [left; reflexivity | exact IH].
Qed.

Lemma C7_equal_computed_centering_good_witness :
  [1; 2; 3]%float <> [] /\ (0 <=? 0.5)%float = true /\
  Forall2 Binary64.igual
    (Binary64.perfil_norm [11; 12; 13]%float)
    (Binary64.perfil_norm [1; 2; 3]%float) /\
  valor (Binary64.comparar_perfiles [11; 12; 13]%float
           (Binary64.MkSistema None None (Some [1; 2; 3]%float) 0.5%float))
  = Ok GOOD.
Proof.
  assert (Hm : [1; 2; 3]%float <> []) by discriminate.
  assert (Ht : (0 <=? 0.5)%float = true) by reflexivity.
  assert (He : Forall2 Binary64.igual
                 (Binary64.perfil_norm [11; 12; 13]%float)
                 (Binary64.perfil_norm [1; 2; 3]%float))
    by (vm_compute; repeat constructor; left; reflexivity).
  split; [exact Hm | split; [exact Ht | split; [exact He |]]].
  exact (proj1 (C7_equal_computed_centering_good
                  [11; 12; 13]%float [1; 2; 3]%float 0.5%float None None
                  Hm Ht) He).
Defined.

(** C8: with master [0,0,0], current [0.1,-0.1,0.2] and tolerance 0.5,
    the master centres to [0,0,0] and the current profile to about
    [0.0333,-0.1667,0.1333]; the deviation [comparar_perfiles] obtains
    from the two centred arrays is about 0.1667, within the tolerance; its verdict on these
    two profiles is the comparison of that deviation with the
    tolerance, whatever the tolerance, and with 0.5 it returns [False]
    (GOOD) after the record of line 191. *)
Theorem C8_scenario_good :
  let master := [0; 0; 0]%float in
  let current := [0.1; -0.1; 0.2]%float in
  Binary64.perfil_norm master = [0; 0; 0]%float /\
  Forall2 (fun x y => Binary64.aprox 0.0001 x y = true)
    (Binary64.perfil_norm current) [0.0333; -0.1667; 0.1333]%float /\
  exists d,
    Binary64.desviacion_maxima current master = Ok d /\
    Binary64.aprox 0.0001 d 0.1667 = true /\
    (d <=? 0.5)%float = true /\
    (forall p c tol,
       valor (Binary64.comparar_perfiles current
                (Binary64.MkSistema p c (Some master) tol))
       = Ok (Some (tol <? d)%float)) /\
    (forall p c,
       valor (Binary64.comparar_perfiles current
                (Binary64.MkSistema p c (Some master) 0.5%float))
       = Ok GOOD /\
       traza (Binary64.comparar_perfiles current
                (Binary64.MkSistema p c (Some master) 0.5%float))
       = [Log INFO 191]).
Proof.
  cbv zeta. split; [vm_compute; reflexivity |].
  split; [vm_compute; repeat constructor |].
  eexists. split; [vm_compute; reflexivity |].
  split; [vm_compute; reflexivity |].
  split; [vm_compute; reflexivity |].
  split.
  - intros p c tol. rewrite comparar_perfiles64_valor.
    cbn [Binary64.perfil_maestro Binary64.UMBRAL_TOLERANCIA].
    reflexivity.
  - intros p c. split; vm_compute; reflexivity.
Qed.

End Binary64Claims.


(** * The inspection cycle of main.3.py *)

Section Ciclo.

Import Main3.

#[local] Arguments adquirir_perfil : simpl never.
#[local] Arguments comparar_perfiles : simpl never.
#[local] Arguments conectar : simpl never.
#[local] Arguments desconectar_todo : simpl never.

(** [adquirir_perfil] leaves the sensor object as it was and only talks
    to the sensor. *)
Lemma adquirir_perfil_marco (d : dialogo) (p : CognexPerfilometro) :
  fin (adquirir_perfil d p) = p /\
  forallb solo_sensor (traza (adquirir_perfil d p)) = true.
Proof.
  destruct p as [sk [|]]; unfold adquirir_perfil, bind, get; cbn;
    [| split; reflexivity].
  destruct d as [e | e | estado muestras]; cbn.
  - destruct e; cbn; split; reflexivity.
  - destruct e; cbn; split; reflexivity.
  - destruct (String.eqb estado "1"); cbn; [| split; reflexivity].
    destruct (np_array_float muestras) as [a | e]; [| destruct e]; cbn;
      split; reflexivity.
Qed.

(** A disconnected sensor, a timeout, a socket error, a status other
    than ["1"] and a sample that is not a number all make
    [adquirir_perfil] return [None]. *)
Lemma adquirir_perfil_None (d : dialogo) (p : CognexPerfilometro) :
  is_connected p = false \/
  (exists e, es_Exception e = true /\
             (d = DialogoSendFalla e \/ d = DialogoRecvFalla e)) \/
  (exists estado muestras, d = DialogoRespuesta estado muestras /\
     (String.eqb estado "1" = false \/ In None muestras)) ->
  valor (adquirir_perfil d p) = Ok None.
Proof.
  destruct p as [sk ic]. unfold adquirir_perfil, bind, get. cbn.
  intros [H | H].
  - rewrite H. reflexivity.
  - destruct ic; cbn; [| reflexivity].
    destruct H as [[e [He [-> | ->]]] | [estado [muestras [-> H]]]]; cbn.
    + destruct e; cbn; try reflexivity; discriminate.
    + destruct e; cbn; try reflexivity; discriminate.
    + destruct (String.eqb estado "1") eqn:E; cbn; [| reflexivity].
      destruct H as [H | H]; [discriminate |].
      assert (X : np_array_float muestras = Exc ValueError).
      { clear E. induction muestras as [| [x |] r IH]; simpl in *.
        - contradiction.
        - destruct H as [H | H]; [discriminate |].
          rewrite (IH H). reflexivity.
        - reflexivity. }
      rewrite X. reflexivity.
Qed.

(** [conectar] always makes a new sensor object and tries to connect
    it; it reaches the cobot only when the sensor answered. *)
Lemma conectar_sensor (cx : conexiones) (s : SistemaInspeccion) :
  let r := conectar cx s in
  In SensorConnect (traza r) /\
  perfilometro (fin r) =
    Some (MkCognex (Some SocketObj)
            match handshake_sensor cx with HsOk => true | _ => false end) /\
  (In CobotConnect (traza r) <-> handshake_sensor cx = HsOk) /\
  perfil_maestro (fin r) = perfil_maestro s /\
  UMBRAL_TOLERANCIA (fin r) = UMBRAL_TOLERANCIA s.
Proof.
  destruct cx as [[| | |] [|]]; unfold conectar; cbn; repeat split;
    try reflexivity; try discriminate; auto 12;
    intros H; repeat (destruct H as [H | H]; try discriminate);
    contradiction.
Qed.

Lemma solo_sensor_inocuo (ev : evento) :
  solo_sensor ev = true ->
  es_envio_cobot ev = false /\ es_conexion ev = false /\ es_espera ev = false.
Proof. destruct ev; simpl; intros H; try discriminate; auto. Qed.

Lemma In_solo_sensor (t : list evento) (ev : evento) :
  forallb solo_sensor t = true -> In ev t ->
  es_envio_cobot ev = false /\ es_conexion ev = false /\ es_espera ev = false.
Proof.
  intros H Hin. apply solo_sensor_inocuo.
  rewrite forallb_forall in H. apply H. exact Hin.
Qed.

(** C2: in a cycle where the cobot's signal arrived and
    [adquirir_perfil] returned no profile, the iteration ends normally
    (the loop goes back to waiting for a signal), the last thing it does
    is the error record of line 225, nothing is sent to the cobot, no
    connection is attempted on either link, there is no delay, and the
    system's attributes are as before. *)
Theorem C2_acquisition_failure_sends_no_verdict
    (env : entorno) (s : SistemaInspeccion)
    (p : CognexPerfilometro) (sock : socket_t) :
  cobot_socket s = Some sock ->
  perfilometro s = Some p ->
  recv_cobot env = RecvDatos ->
  valor (adquirir_perfil (dialogo_sensor env) p) = Ok None ->
  let r := iteracion env s in
  valor r = Ok tt /\
  fin r = s /\
  (forall ev, In ev (traza r) ->
     es_envio_cobot ev = false /\ es_conexion ev = false /\
     es_espera ev = false) /\
  exists t, traza r = t ++ [Log ERROR 225].
Proof.
  intros Hsock Hp Hrecv Hval.
  destruct s as [pf cs pm tol], env as [rv dl sd rc].
  cbn [cobot_socket perfilometro recv_cobot dialogo_sensor] in *. subst.
  destruct (adquirir_perfil_marco dl p) as [Hfin Htr].
  unfold iteracion, try_except, bind, cobot_recv, en_perfilometro, get.
  cbn.
  destruct (adquirir_perfil dl p) as [v f t].
  cbn [valor fin traza] in *. subst.
  cbn. split; [reflexivity |]. split; [reflexivity |]. split.
  - intros ev [<- | [<- | [<- | Hin]]]; try (repeat split; reflexivity).
    apply in_app_or in Hin. destruct Hin as [Hin | [<- | []]].
    + eapply In_solo_sensor; eassumption.
    + repeat split; reflexivity.
  - exists ([Log INFO 206; CobotRecv; Log INFO 214] ++ t). reflexivity.
Qed.

Lemma C2_acquisition_failure_sends_no_verdict_witness :
  let r := iteracion env_sensor_falla sistema_conectado in
  valor r = Ok tt /\
  fin r = sistema_conectado /\
  (forall ev, In ev (traza r) ->
     es_envio_cobot ev = false /\ es_conexion ev = false /\
     es_espera ev = false) /\
  exists t, traza r = t ++ [Log ERROR 225].
Proof.
  apply (C2_acquisition_failure_sends_no_verdict
           env_sensor_falla sistema_conectado
           (MkCognex (Some SocketObj) true) SocketObj);
    reflexivity.
Defined.


(** The iteration in which a profile is acquired and compared: it sends
    the token of the returned value, records the outcome of the send and
    ends normally, with the attributes as before. *)
Lemma iteracion_con_perfil
    (env : entorno) (s : SistemaInspeccion) (p : CognexPerfilometro)
    (sock : socket_t) (actual : perfil) (v : retorno) :
  cobot_socket s = Some sock ->
  perfilometro s = Some p ->
  recv_cobot env = RecvDatos ->
  valor (adquirir_perfil (dialogo_sensor env) p) = Ok (Some actual) ->
  valor (comparar_perfiles actual s) = Ok v ->
  iteracion env s =
  Salida (Ok tt) s
    ([Log INFO 206; CobotRecv; Log INFO 214]
     ++ traza (adquirir_perfil (dialogo_sensor env) p)
     ++ traza (comparar_perfiles actual s)
     ++ [CobotSendall (comando_de v); registro_envio (sendall_cobot env)]).
Proof.
  intros Hsock Hp Hrecv Hadq Hcmp.
  destruct s as [pf cs pm tol], env as [rv dl sd rc].
  cbn [cobot_socket perfilometro recv_cobot dialogo_sensor sendall_cobot] in *.
  subst.
  destruct (adquirir_perfil_marco dl p) as [Hfin _].
  destruct (comparar_perfiles_marco actual
              (MkSistema (Some p) (Some sock) pm tol)) as [Hfin' _].
  unfold iteracion, try_except, bind, cobot_recv, en_perfilometro, get.
  cbn.
  destruct (adquirir_perfil dl p) as [va fa ta].
  cbn [valor fin traza] in *. subst. cbn.
  destruct (comparar_perfiles actual _) as [vc fc tc].
  cbn [valor fin traza] in *. subst. cbn.
  unfold comando_de, registro_envio, enviar_comando_cobot, try_except, bind, get.
  destruct (truthy v), sd; cbn; rewrite <- ?app_assoc; reflexivity.
Qed.

Lemma In_envio (t : list evento) (cmd : string) :
  In (CobotSendall cmd) t -> existsb es_envio_cobot t = true.
Proof.
  intros H. apply existsb_exists. exists (CobotSendall cmd).
  split; [exact H | reflexivity].
Qed.

Lemma adquirir_perfil_sin_envio (d : dialogo) (p : CognexPerfilometro) :
  existsb es_envio_cobot (traza (adquirir_perfil d p)) = false.
Proof.
  destruct (existsb es_envio_cobot _) eqn:E; [| reflexivity].
  apply existsb_exists in E. destruct E as [ev [Hin Hev]].
  destruct (adquirir_perfil_marco d p) as [_ H].
  destruct (In_solo_sensor _ _ H Hin) as [H1 _]. congruence.
Qed.

Lemma comparar_perfiles_sin_envio (a : perfil) (s : SistemaInspeccion) :
  existsb es_envio_cobot (traza (comparar_perfiles a s)) = false.
Proof.
  destruct (comparar_perfiles_marco a s) as [_ [-> | [n [l ->]]]]; reflexivity.
Qed.

Lemma conectar_sin_envio (cx : conexiones) (s : SistemaInspeccion) :
  existsb es_envio_cobot (traza (conectar cx s)) = false.
Proof. destruct cx as [[| | |] [|]]; reflexivity. Qed.

#[local] Opaque PIEZA_DEFECTUOSA PIEZA_BUENA.

Ltac abstraer_conectar :=
  match goal with
  | |- context [conectar ?c ?s] =>
      let vx := fresh "vx" in
      let fx := fresh "fx" in
      let tx := fresh "tx" in
      pose proof (conectar_sin_envio c s);
      destruct (conectar c s) as [vx fx tx]; destruct vx
  end.

Ltac sin_envio :=
  let H := fresh "H" in
  intros H; apply In_envio in H; exfalso; revert H;
  cbn; try abstraer_conectar; cbn [valor fin traza] in *; cbn;
  rewrite ?app_nil_r, ?existsb_app; cbn;
  repeat match goal with
         | E : existsb es_envio_cobot ?t = false
           |- context [existsb es_envio_cobot ?t] => rewrite E
         end;
  cbn; discriminate.

(** A verdict goes on the wire only in an iteration where the signal
    arrived, a profile was acquired and the comparison returned; the
    token is the one the returned value selects. *)
Lemma iteracion_envio_inv (env : entorno) (s : SistemaInspeccion) (cmd : string) :
  In (CobotSendall cmd) (traza (iteracion env s)) ->
  exists sock p actual v,
    cobot_socket s = Some sock /\
    perfilometro s = Some p /\
    recv_cobot env = RecvDatos /\
    valor (adquirir_perfil (dialogo_sensor env) p) = Ok (Some actual) /\
    valor (comparar_perfiles actual s) = Ok v /\
    cmd = comando_de v.
Proof.
  destruct s as [pf cs pm tol], env as [rv dl sd rc].
  cbn [cobot_socket perfilometro recv_cobot dialogo_sensor sendall_cobot].
  unfold iteracion, try_except, bind, cobot_recv, en_perfilometro, get.
  cbn.
  destruct cs as [sock |]; [cbn | sin_envio].
  destruct rv; try sin_envio; cbn.
  destruct pf as [p |]; [cbn | sin_envio].
  pose proof (adquirir_perfil_sin_envio dl p) as Ha.
  destruct (adquirir_perfil_marco dl p) as [Hfa _].
  destruct (adquirir_perfil dl p) as [[[actual |] | e] fa ta] eqn:Ea;
    cbn [valor fin traza] in *; subst fa.
  - cbn. pose proof (comparar_perfiles_sin_envio actual
                  (MkSistema (Some p) (Some sock) pm tol)) as Hc.
    destruct (comparar_perfiles_marco actual
                (MkSistema (Some p) (Some sock) pm tol)) as [Hfc _].
    destruct (comparar_perfiles actual _) as [[v | e] fc tc] eqn:Ec;
      cbn [valor fin traza] in *; subst fc.
    + cbn. intros Hin. exists sock, p, actual, v.
      repeat (split; [reflexivity |]).
      unfold comando_de, enviar_comando_cobot, try_except, bind, get in *.
      destruct (truthy v), sd; cbn in Hin;
        destruct Hin as [Hin | [Hin | [Hin | Hin]]]; try discriminate;
        (apply in_app_or in Hin; destruct Hin as [Hin | Hin];
         [apply In_envio in Hin; congruence |]);
        (apply in_app_or in Hin; destruct Hin as [Hin | Hin];
         [apply In_envio in Hin; congruence |]);
        destruct Hin as [Hin | [Hin | []]]; try discriminate;
        rewrite Ea, Ec; cbn [valor]; repeat split; congruence.
    + destruct e; sin_envio.
  - sin_envio.
  - destruct e; sin_envio.
Qed.

#[local] Transparent PIEZA_DEFECTUOSA PIEZA_BUENA.

(** The iteration in which the cobot's [recv] returns no bytes: the
    lookup of [conectar_cobot] raises, the catch-all handler takes over
    and runs the full [conectar()]. *)
Lemma iteracion_cobot_cerro
    (env : entorno) (s : SistemaInspeccion) (sock : socket_t) :
  cobot_socket s = Some sock ->
  recv_cobot env = RecvVacio ->
  traza (iteracion env s) =
    [Log INFO 206; CobotRecv; Log WARNING 209; Sleep 5;
     Log ERROR 230; Log INFO 231; Sleep 10]
    ++ traza (conectar (reconexion env) s) /\
  fin (iteracion env s) = fin (conectar (reconexion env) s).
Proof.
  intros Hsock Hrecv.
  destruct s as [pf cs pm tol], env as [rv dl sd rc].
  cbn [cobot_socket recv_cobot reconexion] in *. subst.
  unfold iteracion, try_except, bind, cobot_recv, get. cbn.
  destruct (conectar rc _) as [[b | e] fc tc]; cbn;
    rewrite ?app_nil_r; split; reflexivity.
Qed.

(** C3: at the failing input.  The sensor link is connected and the
    cobot closes its end.  The iteration waits 5 s, then the missing
    method raises and the catch-all handler waits 10 s more and runs
    the full [conectar()]: a new sensor object is connected first.  When
    the sensor does not answer, the sensor link goes from connected to
    disconnected and the cobot link is not reconnected at all; when both
    answer, both links are reconnected. *)
Theorem C3_peer_closed_reconnects_sensor_link :
  let r := iteracion env_cobot_cerro sistema_conectado in
  let r' := iteracion env_cobot_cerro_reconecta sistema_conectado in
  perfilometro sistema_conectado = Some (MkCognex (Some SocketObj) true) /\
  traza r =
    [Log INFO 206; CobotRecv; Log WARNING 209; Sleep 5;
     Log ERROR 230; Log INFO 231; Sleep 10; SensorConnect; Log ERROR 59] /\
  perfilometro (fin r) = Some (MkCognex (Some SocketObj) false) /\
  ~ In CobotConnect (traza r) /\
  traza r' =
    [Log INFO 206; CobotRecv; Log WARNING 209; Sleep 5;
     Log ERROR 230; Log INFO 231; Sleep 10;
     SensorConnect; SensorSendall ("admin" ++ CRLF); Sleep 0.5; SensorRecv;
     Log INFO 56; CobotConnect; Log INFO 163].
Proof.
  cbv zeta. split; [reflexivity |]. split; [reflexivity |].
  split; [reflexivity |]. split; [| reflexivity].
  vm_compute. intros H.
  repeat (destruct H as [H | H]; [discriminate |]). exact H.
Qed.

(** C4, amended: when the [sendall] of a verdict raises, the iteration
    records the error (line 200) and ends normally with the system's
    attributes as before; it attempts no connection on either link and
    makes no delay. *)
Theorem C4_send_failure_logged_without_recovery
    (env : entorno) (s : SistemaInspeccion) (cmd : string) :
  sendall_cobot env = false ->
  In (CobotSendall cmd) (traza (iteracion env s)) ->
  let r := iteracion env s in
  valor r = Ok tt /\
  fin r = s /\
  (forall ev, In ev (traza r) -> es_conexion ev = false /\ es_espera ev = false) /\
  exists t, traza r = t ++ [CobotSendall cmd; Log ERROR 200].
Proof.
  intros Hsd Hin.
  destruct (iteracion_envio_inv env s cmd Hin)
    as [sock [p [actual [v [Hs [Hp [Hr [Ha [Hc ->]]]]]]]]].
  cbv zeta.
  rewrite (iteracion_con_perfil env s p sock actual v Hs Hp Hr Ha Hc).
  rewrite Hsd. cbn [valor fin traza registro_envio].
  split; [reflexivity |]. split; [reflexivity |]. split.
  - intros ev Hev.
    apply in_app_or in Hev. destruct Hev as [Hev | Hev].
    { cbn in Hev. destruct Hev as [<- | [<- | [<- | []]]]; split; reflexivity. }
    apply in_app_or in Hev. destruct Hev as [Hev | Hev].
    { destruct (adquirir_perfil_marco (dialogo_sensor env) p) as [_ Ht].
      destruct (In_solo_sensor _ _ Ht Hev) as [_ [H1 H2]]. split; assumption. }
    apply in_app_or in Hev. destruct Hev as [Hev | Hev].
    { destruct (comparar_perfiles_marco actual s) as [_ [E | [n [l E]]]];
        rewrite E in Hev; cbn in Hev.
      - contradiction.
      - destruct Hev as [<- | []]. split; reflexivity. }
    cbn in Hev. destruct Hev as [<- | [<- | []]]; split; reflexivity.
  - eexists. rewrite !app_assoc. reflexivity.
Qed.

Lemma C4_send_failure_logged_without_recovery_witness :
  let r := iteracion env_envio_falla sistema_conectado in
  sendall_cobot env_envio_falla = false /\
  In (CobotSendall PIEZA_DEFECTUOSA) (traza r) /\
  valor r = Ok tt /\
  fin r = sistema_conectado /\
  (forall ev, In ev (traza r) -> es_conexion ev = false /\ es_espera ev = false) /\
  exists t, traza r = t ++ [CobotSendall PIEZA_DEFECTUOSA; Log ERROR 200].
Proof.
  assert (H1 : sendall_cobot env_envio_falla = false) by reflexivity.
  assert (H2 : In (CobotSendall PIEZA_DEFECTUOSA)
                 (traza (iteracion env_envio_falla sistema_conectado)))
    by (vm_compute; do 7 right; left; reflexivity).
  split; [exact H1 |]. split; [exact H2 |].
  exact (C4_send_failure_logged_without_recovery
           env_envio_falla sistema_conectado PIEZA_DEFECTUOSA H1 H2).
Defined.

(** C4 as stated fails: the verdict of a defective part cannot be sent,
    and the iteration reconnects neither link and waits for nothing. *)
Lemma C4_send_failure_counterexample :
  let r := iteracion env_envio_falla sistema_conectado in
  sendall_cobot env_envio_falla = false /\
  In (CobotSendall PIEZA_DEFECTUOSA) (traza r) /\
  ~ In SensorConnect (traza r) /\
  ~ In CobotConnect (traza r) /\
  (forall seg, ~ In (Sleep seg) (traza r)).
Proof.
  cbv zeta. split; [reflexivity |].
  split; [vm_compute; do 7 right; left; reflexivity |].
  split; [| split; [| intros seg]]; vm_compute; intros H;
    repeat (destruct H as [H | H]; [discriminate |]); exact H.
Qed.

Lemma comparar_perfiles_sin_maestro (actual : perfil) (s : SistemaInspeccion) :
  perfil_maestro s = None ->
  comparar_perfiles actual s = Salida (Ok None) s [Log WARNING 173].
Proof.
  intros H. unfold comparar_perfiles, bind, get. cbn. rewrite H. reflexivity.
Qed.

(** C10: with no master profile, [comparar_perfiles] returns [None],
    which is neither [True] nor [False]; it is falsy, so the cycle in
    which a profile was acquired sends [PIEZA_BUENA] to the cobot, the
    only record of the comparison being the warning of line 173. *)
Theorem C10_missing_master_sends_good_token
    (env : entorno) (s : SistemaInspeccion) (p : CognexPerfilometro)
    (sock : socket_t) (actual : perfil) :
  perfil_maestro s = None ->
  cobot_socket s = Some sock ->
  perfilometro s = Some p ->
  recv_cobot env = RecvDatos ->
  valor (adquirir_perfil (dialogo_sensor env) p) = Ok (Some actual) ->
  valor (comparar_perfiles actual s) = Ok None /\
  None <> GOOD /\ None <> DEFECTIVE /\
  truthy None = false /\
  traza (iteracion env s) =
    [Log INFO 206; CobotRecv; Log INFO 214]
    ++ traza (adquirir_perfil (dialogo_sensor env) p)
    ++ [Log WARNING 173; CobotSendall PIEZA_BUENA;
        registro_envio (sendall_cobot env)] /\
  In (CobotSendall PIEZA_BUENA) (traza (iteracion env s)).
Proof.
  intros Hm Hs Hp Hr Ha.
  pose proof (comparar_perfiles_sin_maestro actual s Hm) as Hc.
  assert (Hv : valor (comparar_perfiles actual s) = Ok None)
    by (rewrite Hc; reflexivity).
  rewrite (iteracion_con_perfil env s p sock actual None Hs Hp Hr Ha Hv).
  rewrite Hc. cbn [valor traza].
  split; [reflexivity |]. split; [discriminate |]. split; [discriminate |].
  split; [reflexivity |]. split; [reflexivity |].
  apply in_or_app. right. apply in_or_app. right.
  right. left. reflexivity.
Qed.

Lemma C10_missing_master_sends_good_token_witness :
  valor (comparar_perfiles [0.1; -0.1; 0.2] sistema_sin_maestro) = Ok None /\
  In (CobotSendall PIEZA_BUENA)
     (traza (iteracion env_pieza_buena sistema_sin_maestro)).
Proof.
  pose proof (C10_missing_master_sends_good_token
                env_pieza_buena sistema_sin_maestro
                (MkCognex (Some SocketObj) true) SocketObj [0.1; -0.1; 0.2]
                eq_refl eq_refl eq_refl eq_refl eq_refl) as H.
  split; [apply H | apply H].
Defined.

(** [conectar] returns, and leaves a socket object on both links when
    the cobot link had one. *)
Lemma conectar_enlazado (cx : conexiones) (s : SistemaInspeccion) :
  (exists sock, cobot_socket s = Some sock) ->
  enlazado (fin (conectar cx s)) /\
  exists b, valor (conectar cx s) = Ok b.
Proof.
  intros [sock Hs]. destruct s as [pf cs pm tol]. cbn in Hs. subst.
  destruct cx as [[| | |] [|]]; unfold conectar, enlazado; cbn;
    (split; [split; [do 2 eexists; split; reflexivity | eauto] | eauto]).
Qed.

(** After a successful initial connection both links hold a socket. *)
Lemma conectar_ok_enlazado (cx : conexiones) (s : SistemaInspeccion) :
  valor (conectar cx s) = Ok true -> enlazado (fin (conectar cx s)).
Proof.
  destruct cx as [[| | |] [|]]; unfold conectar, enlazado; cbn;
    intros H; try discriminate;
    (split; [do 2 eexists; split; reflexivity | eauto]).
Qed.

Ltac con_conectar :=
  match goal with
  | Hs : enlazado ?s0 |- context [conectar ?c ?s0] =>
      let Hc := fresh "Hc" in
      let b := fresh "b" in
      let Hb := fresh "Hb" in
      let Hl := fresh "Hl" in
      let vx := fresh "vx" in
      let fx := fresh "fx" in
      let tx := fresh "tx" in
      destruct (conectar_enlazado c s0 (proj2 Hs)) as [Hl [b Hb]];
      destruct (conectar c s0) as [vx fx tx];
      cbn [valor fin traza] in *; subst vx; cbn;
      split; [exact Hl | intros ? ?; discriminate]
  end.

(** An iteration keeps a socket object on both links, and the only
    exceptions that leave it are those [except Exception] lets
    through. *)
Lemma iteracion_enlazado (env : entorno) (s : SistemaInspeccion) :
  enlazado s ->
  enlazado (fin (iteracion env s)) /\
  (forall e, valor (iteracion env s) = Exc e -> es_Exception e = false).
Proof.
  intros Hs.
  destruct s as [pf cs pm tol], env as [rv dl sd rc].
  destruct Hs as [[p [sk [Hp Hsk]]] [sock Hsock]].
  cbn [cobot_socket perfilometro] in *. subst pf cs.
  assert (Hs : enlazado (MkSistema (Some p) (Some sock) pm tol))
    by (split; [exists p, sk; split; [reflexivity | exact Hsk]
               | exists sock; reflexivity]).
  unfold iteracion, try_except, bind, cobot_recv, en_perfilometro, get.
  cbn.
  destruct rv; cbn; try con_conectar.
  - destruct (adquirir_perfil_marco dl p) as [Hfa _].
    destruct (adquirir_perfil dl p) as [[[actual |] | e] fa ta];
      cbn [valor fin traza] in *; subst fa.
    + cbn.
      destruct (comparar_perfiles_marco actual
                  (MkSistema (Some p) (Some sock) pm tol)) as [Hfc _].
      destruct (comparar_perfiles actual _) as [[v | e] fc tc];
        cbn [valor fin traza] in *; subst fc.
      * unfold enviar_comando_cobot, try_except, bind, get.
        destruct (truthy v), sd; cbn;
          (split; [exact Hs | intros ? ?; discriminate]).
      * destruct e; cbn; try con_conectar;
          (split; [exact Hs | intros e He; inversion He; reflexivity]).
    + cbn. split; [exact Hs | intros ? ?; discriminate].
    + destruct e; cbn; try con_conectar;
        (split; [exact Hs | intros e He; inversion He; reflexivity]).
  - split; [exact Hs | intros ? ?; discriminate].
Qed.

(** The loop never returns: it ends with an exception that
    [except Exception] lets through, and both links still hold a
    socket object. *)
Lemma ejecutar_ciclo_inspeccion_fin (iteraciones : list entorno) :
  forall s, enlazado s ->
    enlazado (fin (ejecutar_ciclo_inspeccion iteraciones s)) /\
    exists e, valor (ejecutar_ciclo_inspeccion iteraciones s) = Exc e /\
              es_Exception e = false.
Proof.
  induction iteraciones as [| env resto IH]; intros s Hs.
  - cbn. split; [exact Hs |]. exists KeyboardInterrupt. split; reflexivity.
  - cbn [ejecutar_ciclo_inspeccion]. unfold bind.
    destruct (iteracion_enlazado env s Hs) as [Hl He].
    destruct (iteracion env s) as [[u | e] f t]; cbn [valor fin traza] in *.
    + destruct (IH f Hl) as [Hl' [e [Hv Hx]]].
      destruct (ejecutar_ciclo_inspeccion resto f) as [v' f' t'].
      cbn [valor fin traza] in *. split; [exact Hl' |].
      exists e. split; assumption.
    + split; [exact Hl |]. exists e. split; [reflexivity |].
      apply He. reflexivity.
Qed.

(** Releasing the links of a system that holds a socket on both. *)
Lemma desconectar_todo_enlazado (s : SistemaInspeccion) :
  enlazado s ->
  valor (desconectar_todo s) = Ok tt /\
  traza (desconectar_todo s) =
    [SensorClose; Log INFO 121; CobotClose; Log INFO 241].
Proof.
  intros [[p [sk [Hp Hsk]]] [sock Hsock]].
  destruct s as [pf cs pm tol]. cbn in Hp, Hsock. subst.
  destruct p as [sk' ic]. cbn in Hsk. subst.
  unfold desconectar_todo, en_perfilometro, close, bind, get. cbn.
  split; reflexivity.
Qed.

(** C9, amended: a missing master file ([OSError] from [np.loadtxt])
    is logged and the process leaves through [exit()] before any
    connection attempt, with exit status 0; an unparseable file
    ([ValueError]) is not caught, and the process ends before any
    connection attempt with exit status 1; with the master loaded and
    both peers connected, the operator's interrupt ends the run with
    both links closed and exit status 0. *)
Theorem C9_exit_status_at_startup_and_shutdown :
  (forall inicial iteraciones,
     let r := main (Exc OSError) inicial iteraciones sin_inicializar in
     traza r = [Log ERROR 148; Log CRITICAL 249] /\
     estado_de_salida (valor r) = 0%Z) /\
  (forall inicial iteraciones,
     let r := main (Exc ValueError) inicial iteraciones sin_inicializar in
     traza r = [] /\
     estado_de_salida (valor r) = 1%Z) /\
  (forall maestro iteraciones,
     let r := main (Ok maestro) ambos_responden iteraciones sin_inicializar in
     estado_de_salida (valor r) = 0%Z /\
     exists t, traza r =
               t ++ [SensorClose; Log INFO 121; CobotClose; Log INFO 241;
                     Log INFO 260]).
Proof.
  split; [| split].
  - intros inicial iteraciones. split; reflexivity.
  - intros inicial iteraciones. split; reflexivity.
  - intros maestro iteraciones.
    unfold main, Sistema_init, cargar_perfil_maestro, conectar, try_except,
      try_finally, bind, get.
    cbn.
    match goal with
    | |- context [ejecutar_ciclo_inspeccion iteraciones ?s0] =>
        assert (Hs : enlazado s0)
          by (split; [do 2 eexists; split; reflexivity
                     | eexists; reflexivity]);
        destruct (ejecutar_ciclo_inspeccion_fin iteraciones s0 Hs)
          as [Hl [e [Hv He]]];
        destruct (ejecutar_ciclo_inspeccion iteraciones s0) as [v f t]
    end.
    cbn [valor fin traza] in *. subst v.
    destruct (desconectar_todo_enlazado f Hl) as [Hdv Hdt].
    destruct e; try discriminate; cbn;
      destruct (desconectar_todo f) as [vd fd td];
      cbn [valor fin traza] in *; subst vd td; cbn;
      (split; [reflexivity |]); eexists;
      rewrite ?app_comm_cons, ?app_assoc; reflexivity.
Qed.

(** C9 as stated fails: with the master file missing the exit status is
    not different from 0. *)
Lemma C9_missing_master_counterexample :
  let r := main (Exc OSError) ambos_responden [] sin_inicializar in
  ~ (estado_de_salida (valor r) <> 0%Z).
Proof.
  cbv zeta. intros H. apply H. reflexivity.
Qed.

End Ciclo.

(** * The earlier revisions

    What main.py and main2.py do differently on the points above. *)

Section Revisiones.

(** main2.py has no test of the lengths: a one-sample profile is
    broadcast against the master and may pass as GOOD. *)
Example main2_largo_distinto_pasa :
  valor (Main2.comparar_perfiles (Some [5])
           (Main2.MkSistema None None (Some [1; 1; 1]) 0.5)) = Ok GOOD.
Proof. reflexivity. Qed.

(** main2.py, lengths that do not broadcast: [ValueError]. *)
Example main2_largo_distinto_falla :
  valor (Main2.comparar_perfiles (Some [1; 2])
           (Main2.MkSistema None None (Some [1; 1; 1]) 0.5)) = Exc ValueError.
Proof. reflexivity. Qed.

(** main.py does not centre: an offset changes its verdict. *)
Example main1_sin_centrado :
  Main1.comparar_perfiles [0; 0; 0] [0; 0; 0] = Ok false /\
  Main1.comparar_perfiles (desplazar 1 [0; 0; 0]) [0; 0; 0] = Ok true.
Proof. split; reflexivity. Qed.

(** main2.py on a closed cobot link: the full [conectar()], both
    links. *)
Example main2_cobot_cerro :
  traza (Main2.iteracion
           (Main2.Entorno2 RecvVacio (Ok None) true
              (Main2.Conexiones2 (Ok tt) true))
           (Main2.MkSistema (Some Main2.SdkObj) (Some SocketObj)
              (Some [0; 0; 0]) 0.5))
  = [Log INFO 101; CobotRecv; Log WARNING 104; Sleep 5;
     Log INFO 51; CobotConnect; Log INFO 61].
Proof. reflexivity. Qed.

(** main2.py when the SDK returns no profile: [np.mean(None)] raises,
    the catch-all handler logs and waits; nothing is sent. *)
Example main2_sin_perfil :
  traza (Main2.iteracion
           (Main2.Entorno2 RecvDatos (Ok None) true
              (Main2.Conexiones2 (Ok tt) true))
           (Main2.MkSistema (Some Main2.SdkObj) (Some SocketObj)
              (Some [0; 0; 0]) 0.5))
  = [Log INFO 101; CobotRecv; Log INFO 109; Log ERROR 127; Sleep 5].
Proof. reflexivity. Qed.

(** main2.py does not catch the operator's interrupt. *)
Example main2_interrupcion :
  estado_de_salida
    (valor (Main2.main (Ok [0; 0; 0]) (Main2.Conexiones2 (Ok tt) true) []
              Main2.sin_inicializar)) = 130%Z.
Proof. reflexivity. Qed.

(** main2.py with the master file missing: [exit()], status 0. *)
Example main2_sin_maestro :
  estado_de_salida
    (valor (Main2.main (Exc OSError) (Main2.Conexiones2 (Ok tt) true) []
              Main2.sin_inicializar)) = 0%Z.
Proof. reflexivity. Qed.

End Revisiones.

(** * Further properties of main.3.py: the sensor link *)

Section Sensor.

Import Main3.

(** X1: [connect] never raises; it returns [True] exactly when the whole
    handshake went through, [is_connected] is the returned value and the
    socket attribute holds an object, whatever the object's state was
    before (a stale [is_connected] does not survive a failed attempt). *)
Theorem X1_connect_outcome (hs : handshake) (p : CognexPerfilometro) :
  let ok := match hs with HsOk => true | _ => false end in
  valor (connect hs p) = Ok ok /\
  fin (connect hs p) = MkCognex (Some SocketObj) ok /\
  (In (Log ERROR 59) (traza (connect hs p)) <-> ok = false).
Proof.
  destruct p as [sk ic], hs; cbn; (split; [reflexivity |]);
    (split; [reflexivity |]); split; intros H; try reflexivity;
    try discriminate; cbn; auto 10;
    repeat (destruct H as [H | H]; [discriminate |]); contradiction.
Qed.

Lemma np_array_float_Ok (muestras : list (option Q)) (a : perfil) :
  np_array_float muestras = Ok a <-> muestras = map Some a.
Proof.
  revert a. induction muestras as [| [x |] r IH]; intros a; simpl.
  - split; intros H.
    + injection H as <-. reflexivity.
    + destruct a; [reflexivity | discriminate].
  - destruct (np_array_float r) as [b | e] eqn:E; simpl.
    + split; intros H.
      * injection H as <-. simpl. f_equal. apply IH. reflexivity.
      * destruct a as [| y a]; [discriminate |]. simpl in H.
        injection H as -> H2. apply IH in H2. injection H2 as ->.
        reflexivity.
    + split; intros H; [discriminate |].
      destruct a as [| y a]; [discriminate |]. simpl in H.
      injection H as -> H2. apply IH in H2. discriminate.
  - split; intros H; [discriminate |].
    destruct a; discriminate.
Qed.

Lemma np_array_float_Exc (muestras : list (option Q)) (e : excepcion) :
  np_array_float muestras = Exc e -> e = ValueError.
Proof.
  induction muestras as [| [x |] r IH]; simpl; intros H.
  - discriminate.
  - destruct (np_array_float r); simpl in H; [discriminate |].
    injection H as <-. apply IH. reflexivity.
  - injection H as <-. reflexivity.
Qed.

(** X3: the only exceptions that leave [adquirir_perfil] are those that do
    not derive from [Exception] (an interrupt), raised by one of its
    socket calls; every other failure is turned into [None].  A sensor
    object that is not connected is not talked to at all. *)
Theorem X3_adquirir_perfil_failures (d : dialogo) (p : CognexPerfilometro) :
  (forall e, valor (adquirir_perfil d p) = Exc e ->
     es_Exception e = false /\
     is_connected p = true /\
     (d = DialogoSendFalla e \/ d = DialogoRecvFalla e)) /\
  (is_connected p = false ->
     valor (adquirir_perfil d p) = Ok None /\
     forall ev, In ev (traza (adquirir_perfil d p)) -> ev = Log ERROR 69).
Proof.
  destruct p as [sk ic]. unfold adquirir_perfil, bind, get, try_except. cbn.
  destruct ic; cbn; split; try discriminate.
  - intros e. destruct d as [e' | e' | estado muestras]; cbn.
    + destruct e'; cbn; intros H; try discriminate; injection H as <-;
        repeat split; auto.
    + destruct e'; cbn; intros H; try discriminate; injection H as <-;
        repeat split; auto.
    + destruct (String.eqb estado "1"); cbn; [| discriminate].
      destruct (np_array_float muestras) as [b | e'] eqn:E; cbn;
        [discriminate |].
      apply np_array_float_Exc in E as ->. cbn. discriminate.
  - intros _. split; [reflexivity |].
    intros ev [<- | []]. reflexivity.
Qed.

Lemma X3_adquirir_perfil_failures_witness :
  valor (adquirir_perfil (DialogoRecvFalla KeyboardInterrupt)
           (MkCognex (Some SocketObj) true)) = Exc KeyboardInterrupt /\
  es_Exception KeyboardInterrupt = false.
Proof.
  split; [reflexivity |].
  apply (proj1 (X3_adquirir_perfil_failures
                  (DialogoRecvFalla KeyboardInterrupt)
                  (MkCognex (Some SocketObj) true))
           KeyboardInterrupt eq_refl).
Defined.

(** X4: [close] never raises and keeps the socket attribute.  On an object
    that never had a socket it does nothing; otherwise the object ends
    not connected.  Closing twice leaves the object as closing once. *)
Theorem X4_close_idempotent (p : CognexPerfilometro) :
  valor (close p) = Ok tt /\
  socket (fin (close p)) = socket p /\
  (socket p = None -> fin (close p) = p /\ traza (close p) = []) /\
  (socket p <> None -> is_connected (fin (close p)) = false) /\
  fin (close (fin (close p))) = fin (close p) /\
  valor (close (fin (close p))) = Ok tt.
Proof.
  destruct p as [[sk |] ic]; unfold close, bind, get; cbn;
    repeat split; intros; auto; try discriminate; congruence.
Qed.

Lemma X4_close_idempotent_witness :
  fin (close (MkCognex None true)) = MkCognex None true /\
  is_connected (fin (close (MkCognex (Some SocketObj) true))) = false.
Proof.
  split.
  - destruct (X4_close_idempotent (MkCognex None true)) as [_ [_ [H _]]].
    apply H. reflexivity.
  - destruct (X4_close_idempotent (MkCognex (Some SocketObj) true))
      as [_ [_ [_ [H _]]]].
    apply H. discriminate.
Defined.

(** The texts of a list of chunks, joined. *)
Lemma recibir_respuesta_inv (chunks : list (py string)) :
  forall acc r,
    recibir_respuesta chunks acc = Ok r ->
    exists leidos resto,
      chunks = map Ok leidos ++ resto /\
      r = (acc ++ fold_right String.append EmptyString leidos)%string /\
      ((leidos <> [] /\ termina_en_estado (py_strip r) = true /\
        forall resto', recibir_respuesta (map Ok leidos ++ resto') acc = Ok r)
       \/ exists resto', resto = Ok EmptyString :: resto').
Proof.
  induction chunks as [| [data | e] chunks IH]; intros acc r H; simpl in H.
  - discriminate.
  - destruct (String.eqb_spec data EmptyString) as [-> | Hd].
    + injection H as <-. exists [], (Ok EmptyString :: chunks).
      split; [reflexivity |]. split.
      * simpl. clear. induction acc; simpl; congruence.
      * right. eexists. reflexivity.
    + destruct (termina_en_estado (py_strip (acc ++ data))) eqn:T.
      * injection H as <-. exists [data], chunks.
        split; [reflexivity |]. split.
        -- simpl. f_equal. clear. induction data; simpl; congruence.
        -- left. split; [discriminate |]. split; [exact T |].
           intros resto'. simpl.
           destruct (String.eqb_spec data EmptyString); [contradiction |].
           rewrite T. reflexivity.
      * destruct (IH _ _ H) as [leidos [resto [Hc [Hr Hcase]]]].
        exists (data :: leidos), resto.
        split; [simpl; congruence |]. split.
        -- rewrite Hr. simpl.
           clear. induction acc; simpl; congruence.
        -- destruct Hcase as [[Hne [Ht Hi]] | Hx]; [left | right; exact Hx].
           split; [discriminate |]. split; [exact Ht |].
           intros resto'. simpl.
           destruct (String.eqb_spec data EmptyString); [contradiction |].
           rewrite T. apply Hi.
  - discriminate.
Qed.

(** X5: when the receive loop of [adquirir_perfil] ends with a text, that
    text is the chunks read so far joined in order, and the loop stopped
    for one of two reasons: an empty chunk came next (the peer closed), or
    the text, stripped, ends in the character 0 or 1.  In the second case
    nothing that the sensor sends after it is read: the result is the
    same whatever follows. *)
Theorem X5_recibir_respuesta_framing (chunks : list (py string)) (r : string) :
  recibir_respuesta chunks EmptyString = Ok r ->
  exists leidos resto,
    chunks = map Ok leidos ++ resto /\
    r = fold_right String.append EmptyString leidos /\
    ((leidos <> [] /\ termina_en_estado (py_strip r) = true /\
      forall resto',
        recibir_respuesta (map Ok leidos ++ resto') EmptyString = Ok r)
     \/ exists resto', resto = Ok EmptyString :: resto').
Proof.
  intros H. destruct (recibir_respuesta_inv chunks _ _ H)
    as [leidos [resto [Hc [Hr Hcase]]]].
  exists leidos, resto. split; [exact Hc |]. split; [exact Hr |]. exact Hcase.
Qed.

Lemma X5_recibir_respuesta_framing_witness :
  exists leidos resto,
    [Ok "1"%string; Ok "x"%string] = map Ok leidos ++ resto /\
    "1"%string = fold_right String.append EmptyString leidos /\
    ((leidos <> [] /\ termina_en_estado (py_strip "1") = true /\
      forall resto',
        recibir_respuesta (map Ok leidos ++ resto') EmptyString = Ok "1"%string)
     \/ exists resto', resto = Ok EmptyString :: resto').
Proof.
  apply (X5_recibir_respuesta_framing [Ok "1"%string; Ok "x"%string] "1").
  reflexivity.
Defined.

End Sensor.

(** * Further properties of main.3.py: the comparator *)

Section ComparadorExtra.

Import Main3.

Lemma abs_sub_zip_sym (a b : perfil) :
  perfil_eq (np.abs (np.sub_zip a b)) (np.abs (np.sub_zip b a)).
Proof.
  revert b. induction a as [| x a IH]; intros [| y b]; simpl;
    try constructor.
  - rewrite <- (Qabs_opp (x - y)).
    assert (E : - (x - y) == y - x) by ring. rewrite E. reflexivity.
  - apply IH.
Qed.

Lemma desviacion_maxima_sym (a m : perfil) :
  length a = length m ->
  py_Qeq (desviacion_maxima a m) (desviacion_maxima m a).
Proof.
  intros L.
  rewrite (desviacion_maxima_mismo_largo a m L).
  rewrite (desviacion_maxima_mismo_largo m a (eq_sym L)).
  apply amax_eq, abs_sub_zip_sym.
Qed.

(** X6: the comparison is symmetric: exchanging the roles of the measured
    profile and the master profile gives the same returned value, for
    every pair of profiles (of one length or not) and every tolerance. *)
Theorem X6_comparar_perfiles_symmetric
    (a m : perfil) (tol : Q)
    (p : option CognexPerfilometro) (c : option socket_t) :
  valor (comparar_perfiles a (MkSistema p c (Some m) tol)) =
  valor (comparar_perfiles m (MkSistema p c (Some a) tol)).
Proof.
  rewrite !comparar_perfiles_valor. cbn [perfil_maestro UMBRAL_TOLERANCIA].
  rewrite (Nat.eqb_sym (length a) (length m)).
  destruct (Nat.eqb_spec (length m) (length a)) as [L | L]; cbn [negb].
  - apply veredicto_eq, desviacion_maxima_sym. congruence.
  - reflexivity.
Qed.

(** X7: the verdict is monotone in the tolerance: a comparison that is
    GOOD stays GOOD under every larger tolerance, and one that is
    DEFECTIVE stays DEFECTIVE under every smaller one. *)
Theorem X7_comparar_perfiles_monotone
    (a m : perfil) (tol tol' : Q)
    (p : option CognexPerfilometro) (c : option socket_t) :
  tol <= tol' ->
  (valor (comparar_perfiles a (MkSistema p c (Some m) tol)) = Ok GOOD ->
   valor (comparar_perfiles a (MkSistema p c (Some m) tol')) = Ok GOOD) /\
  (valor (comparar_perfiles a (MkSistema p c (Some m) tol')) = Ok DEFECTIVE ->
   valor (comparar_perfiles a (MkSistema p c (Some m) tol)) = Ok DEFECTIVE).
Proof.
  intros Ht. rewrite !comparar_perfiles_valor.
  cbn [perfil_maestro UMBRAL_TOLERANCIA].
  destruct (negb (Nat.eqb (length m) (length a))).
  - split; [discriminate | reflexivity].
  - destruct (desviacion_maxima a m) as [d | e]; cbn [py_bind].
    + unfold GOOD, DEFECTIVE. split; intros H; injection H as H.
      * apply Qgt_bool_false in H.
        assert (G : Qgt_bool d tol' = false)
          by (apply Qgt_bool_false; eapply Qle_trans; eassumption).
        rewrite G. reflexivity.
      * apply Qgt_bool_true in H.
        assert (G : Qgt_bool d tol = true)
          by (apply Qgt_bool_true; eapply Qle_lt_trans; eassumption).
        rewrite G. reflexivity.
    + split; discriminate.
Qed.

Lemma X7_comparar_perfiles_monotone_witness :
  valor (comparar_perfiles [0; 0; 10]
           (MkSistema None None (Some [0; 0; 0]) 0.5)) = Ok DEFECTIVE.
Proof.
  assert (Ht : 0.5 <= 5) by (apply Qle_bool_iff; vm_compute; reflexivity).
  apply (proj2 (X7_comparar_perfiles_monotone
                  [0; 0; 10] [0; 0; 0] 0.5 5 None None Ht)).
  vm_compute. reflexivity.
Defined.

(** X11: on profiles of one length the comparator of main2.py returns
    what the comparator of main.3.py returns; the two revisions differ
    only where the lengths differ. *)
Theorem X11_main2_agrees_on_equal_lengths
    (a m : perfil) (tol : Q)
    (p : option CognexPerfilometro) (c : option socket_t)
    (p2 : option Main2.Perfilometro) (c2 : option socket_t) :
  length a = length m ->
  valor (Main2.comparar_perfiles (Some a) (Main2.MkSistema p2 c2 (Some m) tol))
  = valor (comparar_perfiles a (MkSistema p c (Some m) tol)).
Proof.
  intros L. rewrite comparar_perfiles_valor.
  cbn [perfil_maestro UMBRAL_TOLERANCIA].
  rewrite L, Nat.eqb_refl. cbn [negb].
  unfold Main2.comparar_perfiles, desviacion_maxima, perfil_norm, bind, get.
  cbn.
  destruct (np.sub _ _) as [resta | e]; cbn; [| reflexivity].
  destruct (np.amax (np.abs resta)) as [d | e]; cbn; [| reflexivity].
  destruct (Qgt_bool d tol); reflexivity.
Qed.

Lemma X11_main2_agrees_on_equal_lengths_witness :
  valor (Main2.comparar_perfiles (Some [0; 0; 10])
           (Main2.MkSistema None None (Some [0; 0; 0]) 0.5))
  = valor (comparar_perfiles [0; 0; 10]
             (MkSistema None None (Some [0; 0; 0]) 0.5)).
Proof.
  apply (X11_main2_agrees_on_equal_lengths
           [0; 0; 10] [0; 0; 0] 0.5 None None None None).
  reflexivity.
Defined.

(** X12: main.py compares the profiles as they are; on profiles of one
    length, main.3.py with the tolerance of main.py returns what main.py
    returns on the two profiles once each is centred on its mean. *)
Theorem X12_main1_on_centred_profiles
    (a m : perfil) (p : option CognexPerfilometro) (c : option socket_t) :
  length a = length m ->
  valor (comparar_perfiles a
           (MkSistema p c (Some m) Main1.UMBRAL_TOLERANCIA))
  = py_bind (Main1.comparar_perfiles (perfil_norm a) (perfil_norm m))
      (fun b => Ok (Some b)).
Proof.
  intros L. rewrite comparar_perfiles_valor.
  cbn [perfil_maestro UMBRAL_TOLERANCIA].
  rewrite L, Nat.eqb_refl. cbn [negb].
  unfold Main1.comparar_perfiles, desviacion_maxima.
  destruct (np.sub _ _) as [resta | e]; cbn; [| reflexivity].
  destruct (np.amax (np.abs resta)) as [d | e]; cbn; [| reflexivity].
  destruct (Qgt_bool d Main1.UMBRAL_TOLERANCIA); reflexivity.
Qed.

Lemma X12_main1_on_centred_profiles_witness :
  valor (comparar_perfiles [0; 0; 10]
           (MkSistema None None (Some [0; 0; 0]) Main1.UMBRAL_TOLERANCIA))
  = py_bind (Main1.comparar_perfiles (perfil_norm [0; 0; 10])
               (perfil_norm [0; 0; 0]))
      (fun b => Ok (Some b)).
Proof.
  apply (X12_main1_on_centred_profiles [0; 0; 10] [0; 0; 0] None None).
  reflexivity.
Defined.

End ComparadorExtra.

Section Binary64Extra.

(** X9: the code does not check the sign of the tolerance.  No
    difference is below zero, so under a negative tolerance a profile
    compared with a master of its length that is not empty is DEFECTIVE
    whenever the deviation is a number, even the master compared with
    itself; only a deviation that is [nan] gives GOOD. *)
Theorem X9_negative_tolerance_defective
    (current master : Binary64.perfil) (tol : float)
    (p : option Main3.CognexPerfilometro) (c : option socket_t) :
  (tol <? 0)%float = true ->
  length current = length master -> master <> [] ->
  exists d,
    Binary64.desviacion_maxima current master = Ok d /\
    valor (Binary64.comparar_perfiles current
             (Binary64.MkSistema p c (Some master) tol))
    = Ok (Some (negb (is_nan d))).
Proof.
  intros Htol L Hm.
  set (dif := Binary64.diferencias_absolutas
                (Binary64.perfil_norm current) (Binary64.perfil_norm master)).
  destruct (amax_es_maximo64 dif) as [d [E Hd]].
  { apply diferencias_absolutas_no_vacio.
    - rewrite !length_perfil_norm64. exact L.
    - intros F. apply Hm. apply length_zero_iff_nil.
      rewrite <- (length_perfil_norm64 master), F. reflexivity. }
  exists d. split.
  - rewrite desviacion_maxima64_mismo_largo by exact L. exact E.
  - destruct (comparar_perfiles64_maximo current master tol d p c L Hd)
      as [_ ->].
    do 2 f_equal.
    destruct (is_nan d) eqn:N; cbn [negb].
    + apply ltb_nan_r. exact N.
    + apply ltb_leb_trans with 0%float; [exact Htol |].
      apply (diferencias_absolutas_no_negativas
               (Binary64.perfil_norm current) (Binary64.perfil_norm master));
        [apply Hd | exact N].
Qed.

Lemma X9_negative_tolerance_defective_witness :
  valor (Binary64.comparar_perfiles [1; 2; 3]%float
           (Binary64.MkSistema None None (Some [1; 2; 3]%float) (-1)%float))
  = Ok DEFECTIVE.
Proof.
  destruct (X9_negative_tolerance_defective
              [1; 2; 3]%float [1; 2; 3]%float (-1)%float None None)
    as [d [E H]].
  - reflexivity.
  - reflexivity.
  - discriminate.
  - refine (eq_trans H _). vm_compute in E. injection E as <-. reflexivity.
Defined.

End Binary64Extra.

(** * Further properties of main.3.py: the system and its cycle *)

Section SistemaExtra.

Import Main3.

#[local] Arguments adquirir_perfil : simpl never.
#[local] Arguments comparar_perfiles : simpl never.
#[local] Arguments conectar : simpl never.
#[local] Arguments desconectar_todo : simpl never.

(** X13: [__init__] raises only what [np.loadtxt] raised outside the
    [OSError] family (a parse error), and then before recording anything;
    a missing file gives an object without master.  In both other cases
    the object has no link yet, the given tolerance, and as master the
    loaded profile or [None]. *)
Theorem X13_Sistema_init_outcome
    (umbral : Q) (c : carga) (s0 : SistemaInspeccion) :
  let r := Sistema_init umbral c s0 in
  (forall m, c = Ok m ->
     valor r = Ok tt /\ fin r = MkSistema None None (Some m) umbral /\
     traza r = [Log INFO 145]) /\
  (forall e, c = Exc e -> es_OSError e = true ->
     valor r = Ok tt /\ fin r = MkSistema None None None umbral /\
     traza r = [Log ERROR 148]) /\
  (forall e, c = Exc e -> es_OSError e = false ->
     valor r = Exc e /\ traza r = []).
Proof.
  destruct s0 as [pf cs pm tol].
  unfold Sistema_init, cargar_perfil_maestro, try_except, bind. cbn.
  split; [| split].
  - intros m ->. cbn. repeat split; reflexivity.
  - intros e -> He. cbn. destruct e; try discriminate; cbn;
      repeat split; reflexivity.
  - intros e -> He. cbn. destruct e; try discriminate; cbn;
      repeat split; reflexivity.
Qed.

Lemma X13_Sistema_init_outcome_witness :
  valor (Sistema_init 0.5 (Exc ValueError) sin_inicializar) = Exc ValueError /\
  fin (Sistema_init 0.5 (Exc OSError) sin_inicializar)
  = MkSistema None None None 0.5.
Proof.
  destruct (X13_Sistema_init_outcome 0.5 (Exc ValueError) sin_inicializar)
    as [_ [_ H3]].
  destruct (X13_Sistema_init_outcome 0.5 (Exc OSError) sin_inicializar)
    as [_ [H2 _]].
  split.
  - apply (H3 ValueError eq_refl eq_refl).
  - apply (H2 OSError eq_refl eq_refl).
Defined.

(** X14: [conectar] never raises and returns [True] exactly when the
    sensor's handshake and the cobot's connection both succeed.  It keeps
    the master and the tolerance.  When the sensor fails it returns at
    once: the cobot's socket attribute is left as it was and no cobot
    connection is attempted.  It never closes the sockets it replaces. *)
Theorem X14_conectar_outcome (cx : conexiones) (s : SistemaInspeccion) :
  let r := conectar cx s in
  valor r = Ok (match handshake_sensor cx with
                | HsOk => connect_cobot cx
                | _ => false
                end) /\
  perfil_maestro (fin r) = perfil_maestro s /\
  UMBRAL_TOLERANCIA (fin r) = UMBRAL_TOLERANCIA s /\
  (handshake_sensor cx <> HsOk ->
     cobot_socket (fin r) = cobot_socket s /\ ~ In CobotConnect (traza r)) /\
  (handshake_sensor cx = HsOk -> cobot_socket (fin r) = Some SocketObj) /\
  ~ In SensorClose (traza r) /\ ~ In CobotClose (traza r).
Proof.
  destruct s as [pf cs pm tol], cx as [hs cc].
  unfold conectar, Cognex_nuevo, Cognex_init, connect, try_except, bind. cbn.
  destruct hs, cc; cbn;
    repeat match goal with
           | |- _ /\ _ => split
           | |- _ = _ => reflexivity
           | |- _ -> _ => intros ?
           | |- ~ _ => intros ?
           | H : ?x <> ?x |- _ => exfalso; apply H; reflexivity
           | H : _ = _ |- _ => discriminate H
           | H : _ \/ _ |- _ => destruct H
           | H : False |- _ => destruct H
           end.
Qed.

Lemma X14_conectar_outcome_witness :
  cobot_socket (fin (conectar sensor_no_responde sistema_conectado))
  = cobot_socket sistema_conectado /\
  ~ In CobotConnect (traza (conectar sensor_no_responde sistema_conectado)).
Proof.
  destruct (X14_conectar_outcome sensor_no_responde sistema_conectado)
    as [_ [_ [_ [H _]]]].
  apply H. discriminate.
Defined.

Lemma conectar_retorna (cx : conexiones) (s : SistemaInspeccion) :
  exists b, valor (conectar cx s) = Ok b.
Proof. destruct cx as [[| | |] [|]]; eexists; reflexivity. Qed.

Lemma adquirir_perfil_excepcion (d : dialogo) (p : CognexPerfilometro)
    (e : excepcion) :
  valor (adquirir_perfil d p) = Exc e ->
  es_Exception e = false /\ (d = DialogoSendFalla e \/ d = DialogoRecvFalla e).
Proof.
  destruct p as [sk ic]. unfold adquirir_perfil, bind, get, try_except. cbn.
  destruct ic; cbn; [| discriminate].
  destruct d as [e' | e' | estado muestras]; cbn.
  - destruct e'; cbn; intros H; try discriminate; injection H as <-; auto.
  - destruct e'; cbn; intros H; try discriminate; injection H as <-; auto.
  - destruct (String.eqb estado "1"); cbn; [| discriminate].
    destruct (np_array_float muestras) as [b | e'] eqn:E; cbn;
      [discriminate |].
    apply np_array_float_Exc in E as ->. cbn. discriminate.
Qed.

Lemma comparar_perfiles_excepcion (a : perfil) (s : SistemaInspeccion)
    (e : excepcion) :
  valor (comparar_perfiles a s) = Exc e -> e = ValueError.
Proof.
  rewrite comparar_perfiles_valor.
  destruct (perfil_maestro s) as [m |]; [| discriminate].
  destruct (Nat.eqb_spec (length m) (length a)) as [L | L]; cbn [negb];
    [| discriminate].
  rewrite (desviacion_maxima_mismo_largo a m (eq_sym L)).
  destruct (np.abs _) as [| x r]; cbn; [| discriminate].
  intros H. injection H as <-. reflexivity.
Qed.

(** X15: what the two failures of the cobot's [recv] do.  A timeout is
    routine: the iteration logs one warning and ends, with nothing sent,
    no delay, no connection attempt and the attributes as before.  Any
    other socket error starts the recovery: after 10 seconds the full
    [conectar()] runs, and the iteration ends normally. *)
Theorem X15_iteracion_recv_faults
    (env : entorno) (s : SistemaInspeccion) (sock : socket_t) :
  cobot_socket s = Some sock ->
  (recv_cobot env = RecvTimeout ->
     iteracion env s =
     Salida (Ok tt) s [Log INFO 206; CobotRecv; Log WARNING 228]) /\
  (recv_cobot env = RecvError ->
     valor (iteracion env s) = Ok tt /\
     fin (iteracion env s) = fin (conectar (reconexion env) s) /\
     traza (iteracion env s) =
       [Log INFO 206; CobotRecv; Log ERROR 230; Log INFO 231; Sleep 10]
       ++ traza (conectar (reconexion env) s)).
Proof.
  intros Hsock.
  destruct s as [pf cs pm tol], env as [rv dl sd rc].
  cbn [cobot_socket recv_cobot reconexion] in *. subst.
  unfold iteracion, try_except, bind, cobot_recv, get.
  split; intros ->; cbn; [reflexivity |].
  destruct (conectar_retorna rc (MkSistema pf (Some sock) pm tol)) as [b Hb].
  destruct (conectar rc _) as [vx fx tx]. cbn [valor fin traza] in *.
  subst vx. cbn. rewrite app_nil_r. repeat split; reflexivity.
Qed.

Lemma X15_iteracion_recv_faults_witness :
  iteracion (Entorno RecvTimeout (DialogoRespuesta "1" []) true ambos_responden)
    sistema_conectado
  = Salida (Ok tt) sistema_conectado
      [Log INFO 206; CobotRecv; Log WARNING 228].
Proof.
  destruct (X15_iteracion_recv_faults
              (Entorno RecvTimeout (DialogoRespuesta "1" []) true
                 ambos_responden)
              sistema_conectado SocketObj eq_refl) as [H _].
  apply H. reflexivity.
Defined.

Ltac tras_conectar :=
  match goal with
  | |- context [conectar ?c ?s0] =>
      let b := fresh "b" in
      let Hb := fresh "Hb" in
      let vx := fresh "vx" in
      let fx := fresh "fx" in
      let tx := fresh "tx" in
      destruct (conectar_retorna c s0) as [b Hb];
      destruct (conectar c s0) as [vx fx tx];
      cbn [valor fin traza] in *; subst vx; cbn
  end.

(** X16: no failure of a peer ends the loop.  Whatever the state of the
    system and whatever the peers do, an iteration raises nothing that
    derives from [Exception]: a socket error, a timeout, the missing
    method of line 211 and a failure of numpy are all caught inside
    it. *)
Theorem X16_iteracion_never_raises_Exception
    (env : entorno) (s : SistemaInspeccion) (e : excepcion) :
  valor (iteracion env s) = Exc e ->
  es_Exception e = false.
Proof.
  destruct s as [pf cs pm tol], env as [rv dl sd rc].
  unfold iteracion, try_except, bind, cobot_recv, en_perfilometro, get.
  cbn.
  destruct cs as [sock |]; cbn; [| tras_conectar; discriminate].
  destruct rv; cbn; try (tras_conectar; discriminate); try discriminate.
  destruct pf as [p |]; cbn; [| tras_conectar; discriminate].
  pose proof (adquirir_perfil_excepcion dl p) as Hex.
  destruct (adquirir_perfil_marco dl p) as [Hfa _].
  destruct (adquirir_perfil dl p) as [[[actual |] | e'] fa ta];
    cbn [valor fin traza] in *; subst fa.
  - cbn.
    pose proof (comparar_perfiles_excepcion actual
                  (MkSistema (Some p) (Some sock) pm tol)) as Hce.
    destruct (comparar_perfiles_marco actual
                (MkSistema (Some p) (Some sock) pm tol)) as [Hfc _].
    destruct (comparar_perfiles actual _) as [[v | e'] fc tc];
      cbn [valor fin traza] in *; subst fc.
    + unfold enviar_comando_cobot, try_except, bind, get.
      destruct (truthy v), sd; cbn; discriminate.
    + rewrite (Hce e' eq_refl). cbn. tras_conectar. discriminate.
  - cbn. discriminate.
  - destruct (Hex e' eq_refl) as [Hne Hd].
    destruct e'; try discriminate; cbn; intros H; injection H as <-;
      reflexivity.
Qed.

Lemma X16_iteracion_never_raises_Exception_witness :
  es_Exception KeyboardInterrupt = false.
Proof.
  apply (X16_iteracion_never_raises_Exception
           (Entorno RecvDatos (DialogoRecvFalla KeyboardInterrupt) true
              ambos_responden)
           sistema_conectado KeyboardInterrupt).
  reflexivity.
Defined.

Lemma envios_nil (t : list evento) :
  existsb es_envio_cobot t = false -> envios t = [].
Proof.
  unfold envios. induction t as [| ev t IH]; simpl; [reflexivity |].
  destruct (es_envio_cobot ev); simpl; [discriminate | exact IH].
Qed.

Lemma envios_app (t u : list evento) : envios (t ++ u) = envios t ++ envios u.
Proof. apply filter_app. Qed.

(** An iteration puts nothing on the wire to the cobot, or exactly the
    token of the value the comparison returned. *)
Lemma iteracion_envios (env : entorno) (s : SistemaInspeccion) :
  envios (traza (iteracion env s)) = [] \/
  exists actual v,
    valor (comparar_perfiles actual s) = Ok v /\
    envios (traza (iteracion env s)) = [CobotSendall (comando_de v)].
Proof.
  destruct (existsb es_envio_cobot (traza (iteracion env s))) eqn:E.
  - right. apply existsb_exists in E. destruct E as [ev [Hin Hev]].
    destruct ev; try discriminate.
    destruct (iteracion_envio_inv env s _ Hin)
      as [sock [p [actual [v [Hs [Hp [Hr [Ha [Hc _]]]]]]]]].
    exists actual, v. split; [exact Hc |].
    rewrite (iteracion_con_perfil env s p sock actual v Hs Hp Hr Ha Hc).
    cbn [traza]. rewrite !envios_app.
    rewrite (envios_nil _ (adquirir_perfil_sin_envio _ _)).
    rewrite (envios_nil _ (comparar_perfiles_sin_envio _ _)).
    unfold registro_envio. destruct (sendall_cobot env); reflexivity.
  - left. apply envios_nil. exact E.
Qed.

Lemma comando_de_DEFECTUOSA (v : retorno) :
  (comando_de v = PIEZA_DEFECTUOSA <-> v = DEFECTIVE) /\
  (comando_de v = PIEZA_BUENA <-> v <> DEFECTIVE).
Proof.
  unfold comando_de, DEFECTIVE.
  destruct v as [[|] |]; cbn; repeat split; intros H;
    try reflexivity; try discriminate; try congruence.
  all: exfalso; apply H; reflexivity.
Qed.

(** X17: an iteration sends the cobot at most one verdict.  When it sends
    one, the sensor object returned a profile in that iteration, the
    comparison of that profile returned, and the token is
    [PIEZA_DEFECTUOSA] exactly when that comparison returned [True];
    [False] and [None] both give [PIEZA_BUENA]. *)
Theorem X17_iteracion_single_verdict
    (env : entorno) (s : SistemaInspeccion) :
  (length (envios (traza (iteracion env s))) <= 1)%nat /\
  forall cmd, In (CobotSendall cmd) (traza (iteracion env s)) ->
    envios (traza (iteracion env s)) = [CobotSendall cmd] /\
    exists p actual v,
      perfilometro s = Some p /\
      valor (adquirir_perfil (dialogo_sensor env) p) = Ok (Some actual) /\
      valor (comparar_perfiles actual s) = Ok v /\
      (cmd = PIEZA_DEFECTUOSA <-> v = DEFECTIVE) /\
      (cmd = PIEZA_BUENA <-> v <> DEFECTIVE).
Proof.
  destruct (iteracion_envios env s) as [E | [actual [v [Hc E]]]].
  - split; [rewrite E; simpl; lia |].
    intros cmd Hin. exfalso.
    assert (X : In (CobotSendall cmd) (envios (traza (iteracion env s))))
      by (apply filter_In; split; [exact Hin | reflexivity]).
    rewrite E in X. exact X.
  - split; [rewrite E; simpl; lia |].
    intros cmd Hin.
    destruct (iteracion_envio_inv env s cmd Hin)
      as [sock [p [actual' [v' [Hs [Hp [Hr [Ha [Hc' Hcmd]]]]]]]]].
    assert (X : In (CobotSendall cmd) (envios (traza (iteracion env s))))
      by (apply filter_In; split; [exact Hin | reflexivity]).
    rewrite E in X. destruct X as [X | []]. injection X as X.
    split; [rewrite E, X; reflexivity |].
    exists p, actual', v'.
    split; [exact Hp |]. split; [exact Ha |]. split; [exact Hc' |].
    rewrite Hcmd. apply comando_de_DEFECTUOSA.
Qed.

Lemma X17_iteracion_single_verdict_witness :
  envios (traza (iteracion env_pieza_buena sistema_conectado))
  = [CobotSendall PIEZA_BUENA].
Proof.
  destruct (X17_iteracion_single_verdict env_pieza_buena sistema_conectado)
    as [_ H].
  apply (H PIEZA_BUENA).
  vm_compute. do 7 right. left. reflexivity.
Defined.

(** An iteration leaves the system as it was or as the [conectar()] of
    its recovery left it. *)
Lemma iteracion_fin (env : entorno) (s : SistemaInspeccion) :
  fin (iteracion env s) = s \/
  fin (iteracion env s) = fin (conectar (reconexion env) s).
Proof.
  destruct s as [pf cs pm tol], env as [rv dl sd rc].
  cbn [reconexion].
  unfold iteracion, try_except, bind, cobot_recv, en_perfilometro, get.
  cbn.
  destruct cs as [sock |]; cbn.
  2:{ right. destruct (conectar rc _) as [[b | e] f t]; reflexivity. }
  destruct rv; cbn;
    try (right; destruct (conectar rc _) as [[b | e] f t]; reflexivity);
    try (left; reflexivity).
  destruct pf as [p |]; cbn.
  2:{ right. destruct (conectar rc _) as [[b | e] f t]; reflexivity. }
  destruct (adquirir_perfil_marco dl p) as [Hfa _].
  destruct (adquirir_perfil dl p) as [[[actual |] | e'] fa ta];
    cbn [valor fin traza] in *; subst fa.
  - cbn.
    destruct (comparar_perfiles_marco actual
                (MkSistema (Some p) (Some sock) pm tol)) as [Hfc _].
    destruct (comparar_perfiles actual _) as [[v | e'] fc tc];
      cbn [valor fin traza] in *; subst fc.
    + unfold enviar_comando_cobot, try_except, bind, get.
      destruct (truthy v), sd; cbn; left; reflexivity.
    + destruct e'; cbn; try (left; reflexivity);
        right; destruct (conectar rc _) as [[b | e] f t]; reflexivity.
  - cbn. left. reflexivity.
  - destruct e'; cbn; try (left; reflexivity);
      right; destruct (conectar rc _) as [[b | e] f t]; reflexivity.
Qed.

Lemma iteracion_conserva (env : entorno) (s : SistemaInspeccion) :
  perfil_maestro (fin (iteracion env s)) = perfil_maestro s /\
  UMBRAL_TOLERANCIA (fin (iteracion env s)) = UMBRAL_TOLERANCIA s.
Proof.
  destruct (iteracion_fin env s) as [-> | ->]; [split; reflexivity |].
  destruct (conectar_sensor (reconexion env) s) as [_ [_ [_ [H1 H2]]]].
  split; assumption.
Qed.

(** X18: the loop never changes the master profile or the tolerance,
    whatever happens in its iterations, and it sends the cobot at most
    one verdict per iteration. *)
Theorem X18_loop_keeps_master_and_tolerance
    (iteraciones : list entorno) (s : SistemaInspeccion) :
  let r := ejecutar_ciclo_inspeccion iteraciones s in
  perfil_maestro (fin r) = perfil_maestro s /\
  UMBRAL_TOLERANCIA (fin r) = UMBRAL_TOLERANCIA s /\
  (length (envios (traza r)) <= length iteraciones)%nat.
Proof.
  cbv zeta. revert s.
  induction iteraciones as [| env resto IH]; intros s.
  - cbn. repeat split; lia.
  - cbn [ejecutar_ciclo_inspeccion]. unfold bind.
    destruct (iteracion_conserva env s) as [H1 H2].
    assert (H3 : (length (envios (traza (iteracion env s))) <= 1)%nat).
    { destruct (iteracion_envios env s) as [E | [a [v [_ E]]]];
        rewrite E; simpl; lia. }
    destruct (iteracion env s) as [[u | e] f t]; cbn [valor fin traza] in *.
    + destruct (IH f) as [G1 [G2 G3]].
      destruct (ejecutar_ciclo_inspeccion resto f) as [v' f' t'].
      cbn [valor fin traza length] in *.
      rewrite envios_app, length_app.
      repeat split; try congruence; lia.
    + cbn [length]. repeat split; try assumption; lia.
Qed.

(** X19: [desconectar_todo] never raises, in any state: before any
    connection it does nothing at all.  It closes the cobot's socket
    exactly when there is one and the sensor's exactly when the sensor
    object has one; it keeps the master, the tolerance and the socket
    attributes, and a sensor object it closed ends not connected. *)
Theorem X19_desconectar_todo_safe (s : SistemaInspeccion) :
  let r := desconectar_todo s in
  valor r = Ok tt /\
  cobot_socket (fin r) = cobot_socket s /\
  perfil_maestro (fin r) = perfil_maestro s /\
  UMBRAL_TOLERANCIA (fin r) = UMBRAL_TOLERANCIA s /\
  (In CobotClose (traza r) <-> cobot_socket s <> None) /\
  (In SensorClose (traza r) <->
   exists p sk, perfilometro s = Some p /\ socket p = Some sk) /\
  (forall p sk, perfilometro s = Some p -> socket p = Some sk ->
     perfilometro (fin r) = Some (MkCognex (Some sk) false)) /\
  (perfilometro s = None -> cobot_socket s = None ->
     fin r = s /\ traza r = []).
Proof.
  destruct s as [[[[sk |] ic] |] [sock |] pm tol];
    unfold desconectar_todo, en_perfilometro, close, bind, get; cbn;
    repeat match goal with
           | |- _ /\ _ => split
           | |- _ <-> _ => split
           | |- _ = _ => reflexivity
           | |- _ -> _ => intros ?
           | |- ~ _ => intros ?
           | |- forall _, _ => intros ?
           | H : ?x <> ?x |- _ => exfalso; apply H; reflexivity
           | H : _ = _ |- _ => discriminate H
           | H : Some _ = Some _ |- _ => injection H as ?; subst
           | H : socket (MkCognex _ _) = _ |- _ => cbn in H
           | H : _ \/ _ |- _ => destruct H
           | H : _ /\ _ |- _ => destruct H
           | H : exists _, _ |- _ => destruct H
           | H : False |- _ => destruct H
           | |- _ \/ _ => auto 6; fail
           | |- exists _, _ => do 2 eexists; split; reflexivity
           end.
Qed.

Lemma X19_desconectar_todo_safe_witness :
  fin (desconectar_todo sin_inicializar) = sin_inicializar /\
  traza (desconectar_todo sin_inicializar) = [].
Proof.
  destruct (X19_desconectar_todo_safe sin_inicializar)
    as [_ [_ [_ [_ [_ [_ [_ H]]]]]]].
  apply H; reflexivity.
Defined.

(** X20: when the initial [conectar()] fails, the script logs the critical
    record of line 262 and ends with exit status 0 without entering the
    loop; [desconectar_todo] is not called on that path, so a sensor
    connection that was established is not closed. *)
Theorem X20_main_initial_connection_failure
    (maestro : perfil) (inicial : conexiones) (iteraciones : list entorno) :
  handshake_sensor inicial <> HsOk \/ connect_cobot inicial = false ->
  let r := main (Ok maestro) inicial iteraciones sin_inicializar in
  estado_de_salida (valor r) = 0%Z /\
  (exists t, traza r = t ++ [Log CRITICAL 262]) /\
  ~ In CobotRecv (traza r) /\
  ~ In SensorClose (traza r) /\
  ~ In CobotClose (traza r) /\
  (handshake_sensor inicial = HsOk -> In (Log INFO 56) (traza r)).
Proof.
  intros H. destruct inicial as [hs cc]. cbn [handshake_sensor connect_cobot] in H.
  unfold main, Sistema_init, cargar_perfil_maestro, conectar, try_except,
    try_finally, bind, get.
  destruct hs, cc; cbn;
    try (exfalso; destruct H as [H | H]; [apply H; reflexivity | discriminate]);
    (split; [reflexivity |]);
    (split; [eexists; rewrite ?app_comm_cons;
             match goal with
             | |- ?l = _ ++ [?x] =>
                 change l with (removelast l ++ [x]); reflexivity
             end |]);
    repeat match goal with
           | |- _ /\ _ => split
           | |- _ -> _ => intros ?
           | |- ~ _ => intros ?
           | H : _ = _ |- _ => discriminate H
           | H : _ \/ _ |- _ => destruct H
           | H : False |- _ => destruct H
           end.
  all: cbn; auto 10.
Qed.

Lemma X20_main_initial_connection_failure_witness :
  estado_de_salida
    (valor (main (Ok [0; 0; 0]) (Conexiones HsOk false) [] sin_inicializar))
  = 0%Z /\
  ~ In SensorClose
      (traza (main (Ok [0; 0; 0]) (Conexiones HsOk false) [] sin_inicializar)).
Proof.
  destruct (X20_main_initial_connection_failure
              [0; 0; 0] (Conexiones HsOk false) []
              (or_intror eq_refl)) as [H1 [_ [_ [H2 _]]]].
  split; assumption.
Defined.

End SistemaExtra.

(** * Further properties of main2.py *)

Section Main2Extra.

#[local] Arguments Main2.comparar_perfiles : simpl never.
#[local] Arguments Main2.conectar : simpl never.

Lemma main2_comparar_perfiles_marco
    (pa : option perfil) (s : Main2.SistemaInspeccion) :
  fin (Main2.comparar_perfiles pa s) = s /\
  existsb es_conexion (traza (Main2.comparar_perfiles pa s)) = false /\
  existsb es_envio_cobot (traza (Main2.comparar_perfiles pa s)) = false /\
  (forall e, valor (Main2.comparar_perfiles pa s) = Exc e ->
     es_Exception e = true).
Proof.
  unfold Main2.comparar_perfiles, bind, get. cbn.
  destruct (Main2.perfil_maestro s) as [m |]; cbn;
    [| repeat split; discriminate].
  destruct pa as [a |]; cbn;
    [| repeat split; try reflexivity; intros e H; injection H as <-;
       reflexivity].
  destruct (np.sub _ _) as [resta | e] eqn:E1; cbn.
  - destruct (np.amax (np.abs resta)) as [d | e] eqn:E2; cbn.
    + destruct (Qgt_bool d _); cbn; repeat split; discriminate.
    + repeat split; try reflexivity. intros e' H. injection H as <-.
      destruct (np.abs resta); cbn in E2; [| discriminate].
      injection E2 as <-. reflexivity.
  - repeat split; try reflexivity. intros e' H. injection H as <-.
    unfold np.sub in E1.
    destruct (Nat.eqb _ _); [discriminate |].
    destruct (np.sub_escalar a _) as [| x [| x' l]];
      destruct (np.sub_escalar m _) as [| y [| y' l']];
      try discriminate; injection E1 as <-; reflexivity.
Qed.

Lemma main2_iteracion_sin_reconexion
    (env : Main2.entorno2) (s : Main2.SistemaInspeccion) :
  Main2.recv_cobot2 env <> RecvVacio ->
  fin (Main2.iteracion env s) = s /\
  existsb es_conexion (traza (Main2.iteracion env s)) = false /\
  (forall e, valor (Main2.iteracion env s) = Exc e ->
     es_Exception e = false /\ Main2.sdk_adquirir env = Exc e).
Proof.
  destruct s as [pf cs pm tol], env as [rv ad sd rc].
  cbn [Main2.recv_cobot2 Main2.sdk_adquirir].
  unfold Main2.iteracion, try_except, bind, Main2.cobot_recv,
    Main2.sdk_adquirir_perfil, get.
  cbn. intros Hrv.
  destruct cs as [sock |]; cbn;
    [| repeat split; discriminate].
  destruct rv; cbn; try (repeat split; discriminate).
  2:{ exfalso; apply Hrv; reflexivity. }
  destruct pf as [sdk |]; cbn; [| repeat split; discriminate].
  destruct ad as [pa | e']; cbn.
  - destruct (main2_comparar_perfiles_marco pa
                (Main2.MkSistema (Some sdk) (Some sock) pm tol))
      as [Hf [Hc [_ He]]].
    destruct (Main2.comparar_perfiles pa _) as [[v | e'] fc tc];
      cbn [valor fin traza] in *; subst fc.
    + unfold Main2.enviar_comando_cobot, try_except, bind, get.
      destruct (truthy v), sd; cbn;
        (split; [reflexivity |]); (split; [| discriminate]);
        rewrite ?existsb_app, Hc; reflexivity.
    + specialize (He e' eq_refl).
      destruct e'; try discriminate; cbn;
        (split; [reflexivity |]); (split; [| discriminate]);
        rewrite ?existsb_app, Hc; reflexivity.
  - destruct e'; cbn; (split; [reflexivity |]); (split; [reflexivity |]);
      try discriminate; intros e H; injection H as <-; split; reflexivity.
Qed.

(** X21: in main2.py a failure never starts a reconnection.  An iteration
    whose [recv] did not return an empty message leaves every attribute
    of the system as it was and attempts no connection, whatever fails
    in it; and nothing that derives from [Exception] leaves it. *)
Theorem X21_main2_no_reconnection_on_failure
    (env : Main2.entorno2) (s : Main2.SistemaInspeccion) :
  Main2.recv_cobot2 env <> RecvVacio ->
  fin (Main2.iteracion env s) = s /\
  ~ In CobotConnect (traza (Main2.iteracion env s)) /\
  (forall e, valor (Main2.iteracion env s) = Exc e -> es_Exception e = false).
Proof.
  intros Hrv.
  destruct (main2_iteracion_sin_reconexion env s Hrv) as [H1 [H2 H3]].
  split; [exact H1 |]. split; [| intros e He; apply (H3 e He)].
  intros Hin.
  assert (X : existsb es_conexion (traza (Main2.iteracion env s)) = true)
    by (apply existsb_exists; exists CobotConnect; split;
        [exact Hin | reflexivity]).
  congruence.
Qed.

Lemma X21_main2_no_reconnection_on_failure_witness :
  fin (Main2.iteracion
         (Main2.Entorno2 RecvError (Ok None) true
            (Main2.Conexiones2 (Ok tt) true))
         (Main2.MkSistema (Some Main2.SdkObj) (Some SocketObj)
            (Some [0; 0; 0]) 0.5))
  = Main2.MkSistema (Some Main2.SdkObj) (Some SocketObj) (Some [0; 0; 0]) 0.5.
Proof.
  destruct (X21_main2_no_reconnection_on_failure
              (Main2.Entorno2 RecvError (Ok None) true
                 (Main2.Conexiones2 (Ok tt) true))
              (Main2.MkSistema (Some Main2.SdkObj) (Some SocketObj)
                 (Some [0; 0; 0]) 0.5)) as [H _].
  - discriminate.
  - exact H.
Defined.

(** X22: main2.py does not test what the SDK returned.  With a master
    loaded, an acquisition that returns [None] makes [np.mean] raise: the
    catch-all handler logs it and waits 5 seconds, nothing is sent to the
    cobot and the system is as before.  With no master loaded the
    comparison returns [None] before looking at the profile, and
    [PIEZA_BUENA] is sent even though nothing was acquired. *)
Theorem X22_main2_acquisition_returns_None
    (env : Main2.entorno2) (s : Main2.SistemaInspeccion)
    (sdk : Main2.Perfilometro) (sock : socket_t) :
  Main2.cobot_socket s = Some sock ->
  Main2.perfilometro s = Some sdk ->
  Main2.recv_cobot2 env = RecvDatos ->
  Main2.sdk_adquirir env = Ok None ->
  (Main2.perfil_maestro s <> None ->
     Main2.iteracion env s =
     Salida (Ok tt) s
       [Log INFO 101; CobotRecv; Log INFO 109; Log ERROR 127; Sleep 5]) /\
  (Main2.perfil_maestro s = None ->
     fin (Main2.iteracion env s) = s /\
     traza (Main2.iteracion env s) =
       [Log INFO 101; CobotRecv; Log INFO 109; Log WARNING 71;
        CobotSendall ("PIEZA_BUENA" ++ LF);
        if Main2.sendall_cobot2 env then Log INFO 92 else Log ERROR 94]).
Proof.
  intros Hs Hp Hr Ha.
  destruct s as [pf cs pm tol], env as [rv ad sd rc].
  cbn [Main2.cobot_socket Main2.perfilometro Main2.recv_cobot2
         Main2.sdk_adquirir Main2.perfil_maestro Main2.sendall_cobot2] in *.
  subst.
  unfold Main2.iteracion, try_except, bind, Main2.cobot_recv,
    Main2.sdk_adquirir_perfil, Main2.comparar_perfiles,
    Main2.enviar_comando_cobot, get.
  destruct pm as [m |]; cbn; split; intros H; try reflexivity;
    try (exfalso; apply H; reflexivity); try discriminate.
  destruct sd; cbn; split; reflexivity.
Qed.

Lemma X22_main2_acquisition_returns_None_witness :
  In (CobotSendall ("PIEZA_BUENA" ++ LF))
     (traza (Main2.iteracion
               (Main2.Entorno2 RecvDatos (Ok None) true
                  (Main2.Conexiones2 (Ok tt) true))
               (Main2.MkSistema (Some Main2.SdkObj) (Some SocketObj)
                  None 0.5))).
Proof.
  destruct (X22_main2_acquisition_returns_None
              (Main2.Entorno2 RecvDatos (Ok None) true
                 (Main2.Conexiones2 (Ok tt) true))
              (Main2.MkSistema (Some Main2.SdkObj) (Some SocketObj) None 0.5)
              Main2.SdkObj SocketObj eq_refl eq_refl eq_refl eq_refl)
    as [_ H].
  destruct (H eq_refl) as [_ Ht]. rewrite Ht.
  do 4 right. left. reflexivity.
Defined.

End Main2Extra.

(** * Further properties of main.3.py: longer runs *)

Section Corridas.

Import Main3.

Lemma iteracion_sensor_desconectado
    (env : entorno) (s : SistemaInspeccion) (p : CognexPerfilometro)
    (sock : socket_t) :
  perfilometro s = Some p -> is_connected p = false ->
  cobot_socket s = Some sock ->
  (recv_cobot env = RecvDatos ->
     iteracion env s =
     Salida (Ok tt) s
       [Log INFO 206; CobotRecv; Log INFO 214; Log ERROR 69; Log ERROR 225]) /\
  (recv_cobot env = RecvTimeout ->
     iteracion env s =
     Salida (Ok tt) s [Log INFO 206; CobotRecv; Log WARNING 228]).
Proof.
  intros Hp Hc Hs.
  destruct s as [pf cs pm tol], env as [rv dl sd rc], p as [sk ic].
  cbn [perfilometro cobot_socket is_connected recv_cobot] in *. subst.
  unfold iteracion, try_except, bind, cobot_recv, en_perfilometro,
    adquirir_perfil, get.
  split; intros ->; reflexivity.
Qed.

(** X23: a sensor object that is not connected is never reconnected by
    the arrival of parts.  As long as the cobot's [recv] returns signals
    or times out, every iteration leaves the system as it is: the sensor
    is not talked to, no connection is attempted and no verdict is sent;
    the only effects are the [recv] on the cobot and log records. *)
Theorem X23_disconnected_sensor_stays_disconnected
    (iteraciones : list entorno) (s : SistemaInspeccion)
    (p : CognexPerfilometro) (sock : socket_t) :
  perfilometro s = Some p -> is_connected p = false ->
  cobot_socket s = Some sock ->
  Forall (fun env => recv_cobot env = RecvDatos \/
                     recv_cobot env = RecvTimeout) iteraciones ->
  let r := ejecutar_ciclo_inspeccion iteraciones s in
  valor r = Exc KeyboardInterrupt /\
  fin r = s /\
  forall ev, In ev (traza r) -> ev = CobotRecv \/ exists n l, ev = Log n l.
Proof.
  intros Hp Hc Hs Hall. cbv zeta.
  induction Hall as [| env resto Hrv _ IH].
  - cbn. repeat split. intros ev [].
  - cbn [ejecutar_ciclo_inspeccion]. unfold bind.
    destruct (iteracion_sensor_desconectado env s p sock Hp Hc Hs)
      as [Hd Ht].
    destruct IH as [Iv [If It]].
    destruct Hrv as [Hrv | Hrv]; [rewrite (Hd Hrv) | rewrite (Ht Hrv)];
      destruct (ejecutar_ciclo_inspeccion resto s) as [v f t];
      cbn [valor fin traza] in *; subst; (split; [reflexivity |]);
      (split; [reflexivity |]); intros ev Hin;
      apply in_app_or in Hin; destruct Hin as [Hin | Hin];
      try (apply It; exact Hin);
      cbn in Hin;
      repeat (destruct Hin as [<- | Hin]; [eauto |]); contradiction.
Qed.

Lemma X23_disconnected_sensor_stays_disconnected_witness :
  fin (ejecutar_ciclo_inspeccion [env_pieza_buena; env_pieza_buena]
         (MkSistema (Some (MkCognex (Some SocketObj) false))
            (Some SocketObj) (Some [0; 0; 0]) 0.5))
  = MkSistema (Some (MkCognex (Some SocketObj) false))
      (Some SocketObj) (Some [0; 0; 0]) 0.5.
Proof.
  apply (X23_disconnected_sensor_stays_disconnected
           [env_pieza_buena; env_pieza_buena]
           (MkSistema (Some (MkCognex (Some SocketObj) false))
              (Some SocketObj) (Some [0; 0; 0]) 0.5)
           (MkCognex (Some SocketObj) false) SocketObj
           eq_refl eq_refl eq_refl).
  repeat constructor.
Defined.

Lemma append_assoc_s (a b c : string) :
  ((a ++ b) ++ c)%string = (a ++ (b ++ c))%string.
Proof. induction a; simpl; congruence. Qed.

(** X24: the receive loop accepts a response only on the two conditions
    of X5.  If every chunk is non-empty and after none of them the text
    received so far, stripped, ends in the character 0 or 1, the loop
    reads on until the socket's timeout: a response whose last sample
    ends in another digit is not returned. *)
Theorem X24_recibir_respuesta_timeout (leidos : list string) :
  forall acc,
    Forall (fun d => d <> EmptyString) leidos ->
    (forall k, (0 < k <= length leidos)%nat ->
       termina_en_estado
         (py_strip (acc ++ fold_right String.append EmptyString
                             (firstn k leidos))) = false) ->
    recibir_respuesta (map Ok leidos) acc = Exc SocketTimeout.
Proof.
  induction leidos as [| d leidos IH]; intros acc Hne Hk.
  - reflexivity.
  - simpl. inversion Hne as [| ? ? Hd Hne']; subst.
    destruct (String.eqb_spec d EmptyString); [contradiction |].
    assert (T : termina_en_estado (py_strip (acc ++ d)) = false).
    { specialize (Hk 1%nat). simpl in Hk.
      assert (E : (d ++ EmptyString)%string = d)
        by (clear; induction d; simpl; congruence).
      rewrite E in Hk. apply Hk. lia. }
    rewrite T. apply IH; [exact Hne' |].
    intros k Hkk. specialize (Hk (S k)). simpl in Hk.
    rewrite append_assoc_s. apply Hk. lia.
Qed.

Lemma X24_recibir_respuesta_timeout_witness :
  recibir_respuesta (map Ok ["1;10."%string; "5"%string]) EmptyString
  = Exc SocketTimeout.
Proof.
  apply (X24_recibir_respuesta_timeout ["1;10."%string; "5"%string]).
  - repeat constructor; discriminate.
  - intros k Hk. simpl in Hk.
    destruct k as [| [| [| k]]]; try lia; reflexivity.
Defined.

End Corridas.
